(** * AIzz Data Analyst: chart selection and report pipeline of [app.py]

    A shallow embedding of the functions of [src/app.py] that decide what the
    tool shows: [auto_chart], [multi_graphs], [map_chart], [ask_ai],
    [save_images], [export_pdf], [export_docx], [load_df] and [pipeline].

    - Python [str] values are [string]s (their UTF-8 bytes).
    - A [DataFrame] is the ordered list of its columns; a column carries its
      name and whether pandas' [select_dtypes(include="number")] selects it.
      The cells are not modelled: no branch of the program reads them.
    - A plotly figure is the [plotly.express] call that built it together with
      the layout updates applied afterwards.
    - Python exceptions are values ([Raise e]); [try/except Exception] is
      [try_except].  Only exceptions of class [Exception] are modelled, and
      the [plotly.express] constructors are taken to build their figure
      without raising.  Everything the program asks of the outside (pandas'
      reader, the chat service, plotly's image writer, reportlab, python-docx,
      the [str] methods that depend on the Unicode tables) is a field of
      [Host]; every theorem holds for every host.  The calls made to the
      outside are logged, in order, in a trace of [Event]s. *)

From Stdlib Require Import List String Ascii Bool PeanoNat QArith_base DecimalString.
From Stdlib Require DecimalNat.
Import ListNotations.
Open Scope string_scope.

(** ** Python values *)

(** The line feed, the ["\n"] of the source. *)
Definition LF : ascii := ascii_of_nat 10.
Definition nl : string := String LF EmptyString.

(** [str(i)] for a non-negative [int]. *)
Definition str_of_nat (n : nat) : string := NilZero.string_of_uint (Nat.to_uint n).

(** [x in xs] for a list of strings. *)
Definition str_in (x : string) (xs : list string) : bool :=
  existsb (String.eqb x) xs.

(** [s.split(sep)] for a separator of one ASCII character: the pieces between
    the separators, [""] included; never the empty list. *)
Fixpoint str_split (sep : ascii) (s : string) : list string :=
  match s with
  | EmptyString => [EmptyString]
  | String c rest =>
      if Ascii.eqb c sep then EmptyString :: str_split sep rest
      else match str_split sep rest with
           | [] => [String c EmptyString]
           | w :: ws => String c w :: ws
           end
  end.

(** [enumerate(xs, start)]. *)
Fixpoint enumerate {A} (xs : list A) (start : nat) : list (nat * A) :=
  match xs with
  | [] => []
  | x :: rest => (start, x) :: enumerate rest (S start)
  end.

(** [a or b] on an optional string: [None] and [""] are falsy. *)
Definition str_or (a : option string) (b : string) : string :=
  match a with
  | None => b
  | Some EmptyString => b
  | Some s => s
  end.

(** [posixpath.join(a, b)]. *)
Definition ends_with_slash (a : string) : bool :=
  match List.rev (list_ascii_of_string a) with
  | c :: _ => Ascii.eqb c "/"
  | [] => false
  end.

Definition path_join (a b : string) : string :=
  match b with
  | String "/" _ => b
  | _ => if (String.eqb a "" || ends_with_slash a)%bool then a ++ b else a ++ "/" ++ b
  end.

(** ** Exceptions *)

(** An exception: its class and [str(e)], what an f-string prints for it. *)
Record Exn := { exn_class : string; exn_str : string }.

Definition IndexError : Exn :=
  {| exn_class := "IndexError"; exn_str := "list index out of range" |}.

Definition AttributeError_strip : Exn :=
  {| exn_class := "AttributeError";
     exn_str := "'NoneType' object has no attribute 'strip'" |}.

Inductive result (A : Type) : Type :=
| Ok (a : A)
| Raise (e : Exn).
Arguments Ok {A} a.
Arguments Raise {A} e.

(** [xs[i]]. *)
Definition getitem {A} (xs : list A) (i : nat) : result A :=
  match nth_error xs i with
  | Some x => Ok x
  | None => Raise IndexError
  end.

(** ** Data frames and figures *)

(** A column: its name (pandas' reader gives every column a string name) and
    whether its dtype is a number dtype. *)
Record Column := { col_name : string; col_number : bool }.

Definition DataFrame := list Column.

(** [df.columns] *)
Definition columns (df : DataFrame) : list string := map col_name df.

(** [df.select_dtypes(include="number").columns.tolist()] *)
Definition numeric_cols (df : DataFrame) : list string :=
  map col_name (filter col_number df).

(** [df.select_dtypes(exclude="number").columns.tolist()] *)
Definition non_numeric_cols (df : DataFrame) : list string :=
  map col_name (filter (fun c => negb (col_number c)) df).

(** The [plotly.express] calls of the program, with the arguments it passes. *)
Inductive Express :=
| px_scatter (data : option DataFrame) (x y : option string) (title : string)
| px_line (data : DataFrame) (x y : string) (title : string) (markers : bool)
| px_bar (data : DataFrame) (x y : string) (title : string) (text : string)
| px_choropleth (data : DataFrame) (locations : string)
    (locationmode geojson featureidkey : option string)
    (color color_continuous_scale title : string).

(** [fig.update_geos(fitbounds=..., visible=...)] *)
Record Geos := { fitbounds : string; visible : bool }.

Record Figure := {
  express : Express;
  layout_template : option string;
  geos : option Geos
}.

Definition fresh (e : Express) : Figure :=
  {| express := e; layout_template := None; geos := None |}.

(** [fig.update_layout(template=t)] *)
Definition update_layout (t : string) (f : Figure) : Figure :=
  {| express := express f; layout_template := Some t; geos := geos f |}.

(** [fig.update_geos(fitbounds=fb, visible=v)] *)
Definition update_geos (fb : string) (v : bool) (f : Figure) : Figure :=
  {| express := express f; layout_template := layout_template f;
     geos := Some {| fitbounds := fb; visible := v |} |}.

(** ** What reportlab and python-docx are asked to write *)

Inductive Flowable :=
| Paragraph (text style : string)
| Spacer (width height : nat)
| RLImage (path : string) (width height : nat).

Inductive DocxItem :=
| add_heading (text : string) (level : nat)
| add_paragraph (text : string)
| add_picture (path : string) (width_inches : nat).

Record Message := { role : string; content : string }.

Inductive CsvInput :=
| PathOrUrl (s : string)
| StringIO (s : string).

(** ** The outside world *)

Inductive Event :=
| ev_read_csv (src : CsvInput)
| ev_chat_create (model : string) (messages : list Message) (temperature : Q)
| ev_write_image (fig : Figure) (path : string) (scale : nat)
| ev_pdf_build (path : string) (story : list Flowable)
| ev_docx_save (path : string) (body : list DocxItem).

Record Host := {
  (** [s.lower()] and [s.strip()], which follow the Unicode tables *)
  str_lower : string -> string;
  str_strip : string -> string;
  (** [pd.read_csv(src)] *)
  read_csv : CsvInput -> result DataFrame;
  (** [df.head().to_string()] *)
  head_to_string : DataFrame -> string;
  (** [client.chat.completions.create(...).choices[0].message.content] *)
  chat_create : string -> list Message -> Q -> result (option string);
  (** [tempfile.gettempdir()] *)
  gettempdir : string;
  (** [fig.write_image(path, scale=scale)] *)
  write_image : Figure -> string -> nat -> result unit;
  (** building the flowables of [story] and [SimpleDocTemplate(path).build(story)] *)
  pdf_build : string -> list Flowable -> result unit;
  (** filling a [Document()] with [body] and [doc.save(path)] *)
  docx_save : string -> list DocxItem -> result unit
}.

(** ** Control: exceptions, and exceptions with a trace *)

Definition bind_result {A B} (r : result A) (k : A -> result B) : result B :=
  match r with
  | Ok a => k a
  | Raise e => Raise e
  end.

Notation "'let*' x ':=' r 'in' k" := (bind_result r (fun x => k))
  (at level 10, x name, r at level 100, k at level 200).

(** A computation that talks to the outside: from the trace so far to its
    outcome and the trace extended with the calls it made. *)
Definition M (A : Type) : Type := list Event -> result A * list Event.

Definition ret {A} (a : A) : M A := fun t => (Ok a, t).

Definition bind {A B} (m : M A) (k : A -> M B) : M B :=
  fun t => match m t with
           | (Ok a, t') => k a t'
           | (Raise e, t') => (Raise e, t')
           end.

(** A pure computation that may raise. *)
Definition lift {A} (r : result A) : M A := fun t => (r, t).

(** One call to the outside, logged, with the outcome the host gives it. *)
Definition call {A} (ev : Event) (r : result A) : M A := fun t => (r, (t ++ [ev])%list).

(** [try: body / except Exception as e: handler] *)
Definition try_except {A} (body : M A) (handler : Exn -> M A) : M A :=
  fun t => match body t with
           | (Ok a, t') => (Ok a, t')
           | (Raise e, t') => handler e t'
           end.

Notation "x <- m ;; k" := (bind m (fun x => k))
  (at level 61, m at next level, right associativity).
Notation "m ;;; k" := (bind m (fun _ => k))
  (at level 61, right associativity).

(** Running a computation from the empty trace. *)
Definition run {A} (m : M A) : result A * list Event := m [].
Definition outcome {A} (m : M A) : result A := fst (run m).
Definition events {A} (m : M A) : list Event := snd (run m).

(** ** AI analysis *)

Definition system_prompt : string :=
  "You are an AIzz Data Analyst. Jelaskan data dalam 3–5 ayat mudah difahami, sesuai untuk pelajar.".

(** The [messages] of [ask_ai] for a question and a data sample. *)
Definition chat_messages (question df_head : string) : list Message :=
  [ {| role := "system"; content := system_prompt |};
    {| role := "user"; content := "Contoh data:" ++ nl ++ df_head |};
    {| role := "user"; content := "Soalan: " ++ question |} ].

Definition ask_ai (H : Host) (question df_head : string) : M string :=
  let messages := chat_messages question df_head in
  resp <- call (ev_chat_create "gpt-4o-mini" messages (4 # 10))
               (chat_create H "gpt-4o-mini" messages (4 # 10)) ;;
  match resp with
  | Some text => ret (str_strip H text)
  | None => lift (Raise AttributeError_strip)
  end.

(** ** Chart helpers *)

Definition time_aliases : list string := ["tahun"; "year"; "date"; "tarikh"].
Definition geo_aliases : list string :=
  ["negeri"; "state"; "daerah"; "region"; "country"; "negara"].
Definition world_aliases : list string := ["country"; "negara"; "state"].

Definition malaysia_geojson : string :=
  "https://raw.githubusercontent.com/sabapathy12/geojson-malaysia/master/malaysia-states.geojson".

(** [[c for c in df.columns if c.lower() in aliases]] *)
Definition aliased (H : Host) (aliases : list string) (df : DataFrame) : list string :=
  filter (fun c => str_in (str_lower H c) aliases) (columns df).

Definition time_like (H : Host) (df : DataFrame) : list string :=
  aliased H time_aliases df.

Definition geo_cols (H : Host) (df : DataFrame) : list string :=
  aliased H geo_aliases df.

Definition no_numeric_chart : Figure :=
  update_layout "plotly_dark"
    (fresh (px_scatter None None None "⚠️ Tiada data numerik ditemui.")).

Definition auto_chart (H : Host) (df : DataFrame) : result Figure :=
  match numeric_cols df with
  | [] => Ok no_numeric_chart
  | _ :: _ =>
      let* fig :=
        match time_like H df, non_numeric_cols df with
        | _ :: _, _ =>
            let* x := getitem (time_like H df) 0 in
            let* y := getitem (numeric_cols df) 0 in
            Ok (fresh (px_line df x y ("Trend " ++ y ++ " mengikut " ++ x) true))
        | [], _ :: _ =>
            let* x := getitem (non_numeric_cols df) 0 in
            let* y := getitem (numeric_cols df) 0 in
            Ok (fresh (px_bar df x y ("Perbandingan " ++ y ++ " mengikut " ++ x) y))
        | [], [] =>
            let* x := getitem (columns df) 0 in
            let* y := getitem (numeric_cols df) 0 in
            Ok (fresh (px_scatter (Some df) (Some x) (Some y)
                         ("Hubungan " ++ x ++ " vs " ++ y)))
        end in
      Ok (update_layout "plotly_dark" fig)
  end.

Definition multi_graphs (df : DataFrame) : result (list Figure) :=
  match numeric_cols df with
  | [] => Ok []
  | _ :: _ =>
      let* x := getitem (columns df) 0 in
      let* y := getitem (numeric_cols df) 0 in
      let f1 := fresh (px_line df x y ("📈 Line Chart " ++ y ++ " vs " ++ x) true) in
      let f2 := fresh (px_bar df x y ("📊 Bar Chart " ++ y ++ " vs " ++ x) y) in
      let f3 := fresh (px_scatter (Some df) (Some x) (Some y)
                         ("🔍 Scatter Plot " ++ y ++ " vs " ++ x)) in
      Ok (map (update_layout "plotly_dark") [f1; f2; f3])
  end.

Definition map_chart (H : Host) (df : DataFrame) : result (option Figure) :=
  match geo_cols H df, numeric_cols df with
  | [], _ | _, [] => Ok None
  | _ :: _, _ :: _ =>
      let* geo := getitem (geo_cols H df) 0 in
      let* val := getitem (numeric_cols df) 0 in
      let fig :=
        if str_in (str_lower H geo) world_aliases then
          fresh (px_choropleth df geo (Some "country names") None None
                   val "Viridis" ("🌍 Peta Dunia: " ++ val))
        else
          update_geos "locations" false
            (fresh (px_choropleth df geo None (Some malaysia_geojson)
                      (Some "properties.name") val "Blues"
                      ("🗺️ Peta Malaysia: " ++ val))) in
      Ok (Some (update_layout "plotly_dark" fig))
  end.

(** ** Export *)

Fixpoint write_images (H : Host) (items : list (nat * Figure)) : M (list string) :=
  match items with
  | [] => ret []
  | (i, f) :: rest =>
      let path := path_join (gettempdir H) ("chart_" ++ str_of_nat i ++ ".png") in
      call (ev_write_image f path 2) (write_image H f path 2) ;;;
      paths <- write_images H rest ;;
      ret (path :: paths)
  end.

Definition save_images (H : Host) (figs : list Figure) : M (list string) :=
  write_images H (enumerate figs 1).

Definition export_pdf (H : Host) (title text : string) (images : list string) : M string :=
  let path := path_join (gettempdir H) "laporan.pdf" in
  let story :=
    ([Paragraph title "Title"; Spacer 1 12; Paragraph "Analisis Ringkas" "Heading2"]
     ++ map (fun p => Paragraph p "Normal") (str_split LF text)
     ++ [Spacer 1 12]
     ++ flat_map (fun ip => [Paragraph ("Graf " ++ str_of_nat (fst ip)) "Heading3";
                             RLImage (snd ip) 400 250;
                             Spacer 1 12])
                 (enumerate images 1))%list in
  call (ev_pdf_build path story) (pdf_build H path story) ;;;
  ret path.

Definition export_docx (H : Host) (title text : string) (images : list string) : M string :=
  let path := path_join (gettempdir H) "laporan.docx" in
  let body :=
    ([add_heading title 1; add_heading "Analisis Ringkas" 2]
     ++ map add_paragraph (str_split LF text)
     ++ flat_map (fun ip => [add_heading ("Graf " ++ str_of_nat (fst ip)) 3;
                             add_picture (snd ip) 6])
                 (enumerate images 1))%list in
  call (ev_docx_save path body) (docx_save H path body) ;;;
  ret path.

(** ** Main pipeline *)

(** The uploaded file, of which the program reads [file.name]. *)
Record Upload := { file_name : string }.

(** Truth value of a [str]: non-empty. *)
Definition truthy (s : string) : bool := negb (String.eqb s "").

(** [t and t.strip()] as a condition, yielding the text to read when it holds:
    [t] is neither [None] nor [""], and stripping it leaves something. *)
Definition given (H : Host) (t : option string) : option string :=
  match t with
  | Some s => if (truthy s && truthy (str_strip H s))%bool then Some s else None
  | None => None
  end.

Definition pd_read_csv (H : Host) (src : CsvInput) : M DataFrame :=
  call (ev_read_csv src) (read_csv H src).

Definition load_df (H : Host) (file : option Upload) (text_data url : option string)
  : M (option DataFrame) :=
  match file with
  | Some f => df <- pd_read_csv H (PathOrUrl (file_name f)) ;; ret (Some df)
  | None =>
      match given H text_data with
      | Some s => df <- pd_read_csv H (StringIO s) ;; ret (Some df)
      | None =>
          match given H url with
          | Some u => df <- pd_read_csv H (PathOrUrl u) ;; ret (Some df)
          | None => ret None
          end
      end
  end.

(** The tuple [pipeline] returns: main chart, the three panel charts, the map,
    the narrative, the PDF path and the DOCX path; [None] is Python's [None]. *)
Definition Outputs : Type :=
  option Figure * option Figure * option Figure * option Figure * option Figure
  * string * option string * option string.

Definition default_question : string := "Terangkan trend utama".
Definition default_title : string := "📊 Laporan AIzz Data Analyst".

Definition no_data : Outputs :=
  (None, None, None, None, None, "⚠️ Tiada data", None, None).

Definition read_error (e : Exn) : Outputs :=
  (None, None, None, None, None, "⚠️ Ralat baca data: " ++ exn_str e, None, None).

Definition pipeline (H : Host) (file : option Upload)
    (text_data url query title : option string) : M Outputs :=
  loaded <- try_except
              (df <- load_df H file text_data url ;;
               match df with
               | None => ret (inl no_data)
               | Some df => ret (inr df)
               end)
              (fun e => ret (inl (read_error e))) ;;
  match loaded with
  | inl early => ret early
  | inr df =>
      explanation <- try_except
                       (ask_ai H (str_or query default_question) (head_to_string H df))
                       (fun e => ret ("⚠️ Gagal AI: " ++ exn_str e)) ;;
      main <- lift (auto_chart H df) ;;
      figs <- lift (multi_graphs df) ;;
      mapfig <- lift (map_chart H df) ;;
      let all_figs :=
        ([main] ++ figs ++ match mapfig with Some m => [m] | None => [] end)%list in
      exported <- try_except
                    (imgs <- save_images H all_figs ;;
                     pdf <- export_pdf H (str_or title default_title) explanation imgs ;;
                     docx <- export_docx H (str_or title default_title) explanation imgs ;;
                     ret (explanation, Some pdf, Some docx))
                    (fun e => ret (explanation ++ nl ++ "⚠️ Gagal export: " ++ exn_str e,
                                   None, None)) ;;
      let '(explanation, pdf, docx) := exported in
      f0 <- lift (getitem figs 0) ;;
      f1 <- lift (getitem figs 1) ;;
      f2 <- lift (getitem figs 2) ;;
      ret (Some main, Some f0, Some f1, Some f2, mapfig, explanation, pdf, docx)
  end.

(** ** The chart rules in the words of the specification

    The specification speaks of "the first numeric column", "the first
    non-numeric column", "a column whose name matches an alias" and of datasets
    "with at least one numeric column".  These are stated here with [find],
    [hd_error] and [existsb]; the program computes them with comprehensions and
    [xs[0]]. *)

Definition first_column (df : DataFrame) : option string := hd_error (columns df).

Definition first_numeric (df : DataFrame) : option string :=
  option_map col_name (find col_number df).

Definition first_non_numeric (df : DataFrame) : option string :=
  option_map col_name (find (fun c => negb (col_number c)) df).

(** The first column, in column order, whose lower-cased name is an alias. *)
Definition first_alias (H : Host) (aliases : list string) (df : DataFrame) : option string :=
  find (fun c => str_in (str_lower H c) aliases) (columns df).

Definition has_numeric (df : DataFrame) : bool := existsb col_number df.

Definition has_alias (H : Host) (aliases : list string) (df : DataFrame) : bool :=
  existsb (fun c => str_in (str_lower H c) aliases) (columns df).

(** A figure in the dark theme every chart of the program gets. *)
Definition dark (e : Express) : Figure := update_layout "plotly_dark" (fresh e).

(** The three charts of the comparison panel for axes [x] and [y]. *)
Definition panel (df : DataFrame) (x y : string) : list Figure :=
  [ dark (px_line df x y ("📈 Line Chart " ++ y ++ " vs " ++ x) true);
    dark (px_bar df x y ("📊 Bar Chart " ++ y ++ " vs " ++ x) y);
    dark (px_scatter (Some df) (Some x) (Some y) ("🔍 Scatter Plot " ++ y ++ " vs " ++ x)) ].

(** The world map and the regional map of [map_chart]. *)
Definition world_map (df : DataFrame) (geo val : string) : Figure :=
  dark (px_choropleth df geo (Some "country names") None None
          val "Viridis" ("🌍 Peta Dunia: " ++ val)).

Definition regional_map (df : DataFrame) (geo val : string) : Figure :=
  update_layout "plotly_dark"
    (update_geos "locations" false
       (fresh (px_choropleth df geo None (Some malaysia_geojson) (Some "properties.name")
                 val "Blues" ("🗺️ Peta Malaysia: " ++ val)))).

(** The narrative that stands in for a failed call of the chat service, and
    the note appended to the narrative when the export fails. *)
Definition ai_failure (e : Exn) : string := "⚠️ Gagal AI: " ++ exn_str e.
Definition export_failure (e : Exn) : string := nl ++ "⚠️ Gagal export: " ++ exn_str e.

(** [result_map f r]: [f] under [Ok]. *)
Definition result_map {A B} (f : A -> B) (r : result A) : result B :=
  match r with
  | Ok a => Ok (f a)
  | Raise e => Raise e
  end.

(** ** The stages of the pipeline

    The specification names the stages LOAD, NARRATE, CHART and EXPORT.  The
    blocks of [pipeline] after LOAD are named here one by one;
    [pipeline_stages] below shows that [pipeline] is their composition. *)

(** NARRATE: the second [try] block. *)
Definition narrate (H : Host) (df : DataFrame) (query : option string) : M string :=
  try_except
    (ask_ai H (str_or query default_question) (head_to_string H df))
    (fun e => ret (ai_failure e)).

(** [[main]+figs+([mapfig] if mapfig else [])] *)
Definition all_figures (main : Figure) (figs : list Figure) (mapfig : option Figure)
  : list Figure :=
  ([main] ++ figs ++ match mapfig with Some m => [m] | None => [] end)%list.

(** EXPORT: the body of the third [try] block, and the block with its
    handler, yielding the narrative (annotated on failure) and the two paths. *)
Definition export_body (H : Host) (title : option string) (explanation : string)
    (figs : list Figure) : M (string * option string * option string) :=
  imgs <- save_images H figs ;;
  pdf <- export_pdf H (str_or title default_title) explanation imgs ;;
  docx <- export_docx H (str_or title default_title) explanation imgs ;;
  ret (explanation, Some pdf, Some docx).

Definition export (H : Host) (title : option string) (explanation : string)
    (figs : list Figure) : M (string * option string * option string) :=
  try_except
    (export_body H title explanation figs)
    (fun e => ret (explanation ++ export_failure e, None, None)).

(** The [return] statement that ends [pipeline]. *)
Definition deliver (main : Figure) (figs : list Figure) (mapfig : option Figure)
    (exported : string * option string * option string) : M Outputs :=
  let '(explanation, pdf, docx) := exported in
  f0 <- lift (getitem figs 0) ;;
  f1 <- lift (getitem figs 1) ;;
  f2 <- lift (getitem figs 2) ;;
  ret (Some main, Some f0, Some f1, Some f2, mapfig, explanation, pdf, docx).

(** Everything [pipeline] does once a dataset is loaded. *)
Definition after_load (H : Host) (df : DataFrame) (query title : option string)
  : M Outputs :=
  explanation <- narrate H df query ;;
  main <- lift (auto_chart H df) ;;
  figs <- lift (multi_graphs df) ;;
  mapfig <- lift (map_chart H df) ;;
  exported <- export H title explanation (all_figures main figs mapfig) ;;
  deliver main figs mapfig exported.

(** The narrative NARRATE ends with: the stripped answer of the service, or
    the placeholder for the exception raised on the way. *)
Definition narrative (H : Host) (df : DataFrame) (query : option string) : string :=
  match chat_create H "gpt-4o-mini"
          (chat_messages (str_or query default_question) (head_to_string H df)) (4 # 10) with
  | Ok (Some text) => str_strip H text
  | Ok None => ai_failure AttributeError_strip
  | Raise e => ai_failure e
  end.

(** The call NARRATE makes. *)
Definition chat_event (H : Host) (df : DataFrame) (query : option string) : Event :=
  ev_chat_create "gpt-4o-mini"
    (chat_messages (str_or query default_question) (head_to_string H df)) (4 # 10).

(** The tuple returned for the charts [main], [figs] and [mapfig]. *)
Definition outputs (main : Figure) (figs : list Figure) (mapfig : option Figure)
    (text : string) (pdf docx : option string) : Outputs :=
  (Some main, nth_error figs 0, nth_error figs 1, nth_error figs 2, mapfig, text, pdf, docx).

(** ** A host for running the program on examples

    [str.lower] and [str.strip] restricted to ASCII text, on which they agree
    with Python's; a reader, a chat service and an image writer with fixed
    outcomes; document writers that succeed. *)

Definition ascii_lower_char (c : ascii) : ascii :=
  let n := nat_of_ascii c in
  if (Nat.leb 65 n && Nat.leb n 90)%bool then ascii_of_nat (n + 32)%nat else c.

Fixpoint ascii_lower (s : string) : string :=
  match s with
  | EmptyString => EmptyString
  | String c rest => String (ascii_lower_char c) (ascii_lower rest)
  end.

Definition ascii_space (c : ascii) : bool :=
  let n := nat_of_ascii c in
  (Nat.eqb n 32 || (Nat.leb 9 n && Nat.leb n 13) || (Nat.leb 28 n && Nat.leb n 31))%bool.

Fixpoint lstrip (s : string) : string :=
  match s with
  | EmptyString => EmptyString
  | String c rest => if ascii_space c then lstrip rest else s
  end.

Definition reverse (s : string) : string :=
  string_of_list_ascii (List.rev (list_ascii_of_string s)).

Definition ascii_strip (s : string) : string := reverse (lstrip (reverse (lstrip s))).

Definition sample_host (csv : CsvInput -> result DataFrame)
    (chat : result (option string)) (image : result unit) : Host :=
  {| str_lower := ascii_lower;
     str_strip := ascii_strip;
     read_csv := csv;
     head_to_string := fun df => String.concat " " (columns df);
     chat_create := fun _ _ _ => chat;
     gettempdir := "/tmp";
     write_image := fun _ _ _ => image;
     pdf_build := fun _ _ => Ok tt;
     docx_save := fun _ _ => Ok tt |}.

Definition number (n : string) : Column := {| col_name := n; col_number := true |}.
Definition object (n : string) : Column := {| col_name := n; col_number := false |}.

Definition year_sales : DataFrame := [number "year"; number "sales"].
Definition year_name : DataFrame := [number "year"; object "name"].
Definition country_gdp : DataFrame := [object "country"; number "gdp"].
Definition negeri_penduduk : DataFrame := [object "Negeri"; number "penduduk"].
Definition names_only : DataFrame := [object "name"; object "city"].

(** The pasted text [name,city / alice,ipoh], which pandas reads as
    [names_only]: two columns of strings. *)
Definition names_csv : string := "name,city" ++ nl ++ "alice,ipoh".

Definition ParserError : Exn :=
  {| exn_class := "ParserError"; exn_str := "Error tokenizing data" |}.
Definition ConnectionError : Exn :=
  {| exn_class := "APIConnectionError"; exn_str := "Connection error." |}.
Definition KaleidoError : Exn :=
  {| exn_class := "ValueError"; exn_str := "Image export requires the kaleido package" |}.

(** The pasted text [year,sales / 2020,100 / 2021,150], which pandas reads
    as [year_sales]: two columns of integers. *)
Definition sales_csv : string :=
  "year,sales" ++ nl ++ "2020,100" ++ nl ++ "2021,150".

(** A reader that knows one pasted text. *)
Definition reads_as (text : string) (df : DataFrame) (src : CsvInput) : result DataFrame :=
  match src with
  | StringIO s => if String.eqb s text then Ok df else Raise ParserError
  | PathOrUrl _ => Raise ParserError
  end.

Definition reads_names : CsvInput -> result DataFrame := reads_as names_csv names_only.
Definition reads_sales : CsvInput -> result DataFrame := reads_as sales_csv year_sales.

(** Everything works, and the pasted text holds no number. *)
Definition host_names : Host := sample_host reads_names (Ok (Some "Ringkasan.")) (Ok tt).
(** The chat service is unreachable. *)
Definition host_names_no_ai : Host := sample_host reads_names (Raise ConnectionError) (Ok tt).
(** The image writer fails. *)
Definition host_names_no_image : Host :=
  sample_host reads_names (Ok (Some "Ringkasan.")) (Raise KaleidoError).
(** The same three hosts for the pasted text with numbers. *)
Definition host_sales : Host := sample_host reads_sales (Ok (Some "Ringkasan.")) (Ok tt).
Definition host_sales_no_ai : Host := sample_host reads_sales (Raise ConnectionError) (Ok tt).
Definition host_sales_no_image : Host :=
  sample_host reads_sales (Ok (Some "Ringkasan.")) (Raise KaleidoError).

(** The primary chart of [year_sales]: the first numeric column is the time
    column itself. *)
Definition sales_line : Figure :=
  dark (px_line year_sales "year" "year" "Trend year mengikut year" true).

(** The request for a sample of [names_only] and the default question. *)
Definition names_chat : Event :=
  ev_chat_create "gpt-4o-mini" (chat_messages "Terangkan trend utama" "name city") (4 # 10).

(** ** Reading charts, documents and traces

    What a chart plots, what a document holds and which calls a trace
    records, for stating what the program writes. *)

(** The columns a chart refers to. *)
Definition axes (e : Express) : list string :=
  match e with
  | px_scatter _ x y _ =>
      (match x with Some c => [c] | None => [] end
       ++ match y with Some c => [c] | None => [] end)%list
  | px_line _ x y _ _ => [x; y]
  | px_bar _ x y _ text => [x; y; text]
  | px_choropleth _ locations _ _ _ color _ _ => [locations; color]
  end.

(** The path [save_images] gives the [i]-th chart, and the paths of the two
    documents. *)
Definition chart_path (H : Host) (i : nat) : string :=
  path_join (gettempdir H) ("chart_" ++ str_of_nat i ++ ".png").
Definition pdf_path (H : Host) : string := path_join (gettempdir H) "laporan.pdf".
Definition docx_path (H : Host) : string := path_join (gettempdir H) "laporan.docx".

(** The paths of [n] charts numbered from [start], and the writes of the
    charts [figs] numbered from [start]. *)
Definition image_paths (H : Host) (start n : nat) : list string :=
  map (chart_path H) (seq start n).

Definition write_events (H : Host) (figs : list Figure) (start : nat) : list Event :=
  map (fun ip => ev_write_image (snd ip) (chart_path H (fst ip)) 2) (enumerate figs start).

(** The headings "Graf 1", ..., "Graf n". *)
Definition chart_headings (n : nat) : list string :=
  map (fun i => "Graf " ++ str_of_nat i) (seq 1 n).

(** The paragraphs of one style, and the images, of a PDF story, in order. *)
Definition story_paragraphs (style : string) (story : list Flowable) : list string :=
  flat_map (fun fl => match fl with
                      | Paragraph text s => if String.eqb s style then [text] else []
                      | _ => []
                      end) story.

Definition story_images (story : list Flowable) : list string :=
  flat_map (fun fl => match fl with RLImage path _ _ => [path] | _ => [] end) story.

(** The headings of one level, the paragraphs and the pictures of a DOCX
    body, in order. *)
Definition body_headings (level : nat) (body : list DocxItem) : list string :=
  flat_map (fun it => match it with
                      | add_heading text l => if Nat.eqb l level then [text] else []
                      | _ => []
                      end) body.

Definition body_paragraphs (body : list DocxItem) : list string :=
  flat_map (fun it => match it with add_paragraph text => [text] | _ => [] end) body.

Definition body_pictures (body : list DocxItem) : list string :=
  flat_map (fun it => match it with add_picture path _ => [path] | _ => [] end) body.

(** Kinds of calls. *)
Definition is_chat (ev : Event) : bool :=
  match ev with ev_chat_create _ _ _ => true | _ => false end.

Definition is_read (ev : Event) : bool :=
  match ev with ev_read_csv _ => true | _ => false end.

Definition is_write (ev : Event) : bool :=
  match ev with ev_write_image _ _ _ => true | _ => false end.

Definition is_export (ev : Event) : bool :=
  match ev with
  | ev_write_image _ _ _ | ev_pdf_build _ _ | ev_docx_save _ _ => true
  | _ => false
  end.

(** Whether a string holds the line feed. *)
Fixpoint has_LF (s : string) : bool :=
  match s with
  | EmptyString => false
  | String c rest => (Ascii.eqb c LF || has_LF rest)%bool
  end.

(** A host on which the second chart cannot be written. *)
Definition DiskError : Exn :=
  {| exn_class := "OSError"; exn_str := "No space left on device" |}.

Definition host_disk_full : Host :=
  {| str_lower := ascii_lower;
     str_strip := ascii_strip;
     read_csv := reads_sales;
     head_to_string := fun df => String.concat " " (columns df);
     chat_create := fun _ _ _ => Ok (Some "Ringkasan.");
     gettempdir := "/tmp";
     write_image := fun _ path _ =>
                      if String.eqb path "/tmp/chart_2.png" then Raise DiskError else Ok tt;
     pdf_build := fun _ _ => Ok tt;
     docx_save := fun _ _ => Ok tt |}.

(** * Properties *)

(** ** Lists: comprehensions and [xs[0]] against [find] and [existsb] *)

Section Lists.
Context {A B : Type}.
Variable p : A -> bool.
Variable f : A -> B.

Lemma hd_error_filter (l : list A) : hd_error (filter p l) = find p l.
Proof.
  induction l as [|a l IH]; simpl; [reflexivity|].
  destruct (p a); simpl; auto.
Qed.

Lemma hd_error_map_filter (l : list A) :
  hd_error (map f (filter p l)) = option_map f (find p l).
Proof.
  rewrite <- hd_error_filter. destruct (filter p l); reflexivity.
Qed.

Lemma find_none_existsb (l : list A) : find p l = None <-> existsb p l = false.
Proof.
  induction l as [|a l IH]; simpl; [tauto|].
  destruct (p a); simpl; [split; discriminate | exact IH].
Qed.

Lemma hd_error_some (l : list A) (x : A) :
  hd_error l = Some x -> exists xs, l = x :: xs.
Proof. destruct l; simpl; intros E; [discriminate | injection E as ->; eauto]. Qed.

Lemma hd_error_none (l : list A) : hd_error l = None -> l = [].
Proof. destruct l; simpl; [reflexivity | discriminate]. Qed.
End Lists.

(** ** Columns *)

Lemma numeric_cols_first (df : DataFrame) : hd_error (numeric_cols df) = first_numeric df.
Proof. apply hd_error_map_filter. Qed.

Lemma non_numeric_cols_first (df : DataFrame) :
  hd_error (non_numeric_cols df) = first_non_numeric df.
Proof. apply hd_error_map_filter. Qed.

Lemma aliased_first (H : Host) (aliases : list string) (df : DataFrame) :
  hd_error (aliased H aliases df) = first_alias H aliases df.
Proof. apply hd_error_filter. Qed.

Lemma first_numeric_some (df : DataFrame) (y : string) :
  first_numeric df = Some y -> exists ys, numeric_cols df = y :: ys.
Proof. rewrite <- numeric_cols_first. apply hd_error_some. Qed.

Lemma first_numeric_none (df : DataFrame) : first_numeric df = None -> numeric_cols df = [].
Proof. rewrite <- numeric_cols_first. apply hd_error_none. Qed.

Lemma first_non_numeric_some (df : DataFrame) (g : string) :
  first_non_numeric df = Some g -> exists gs, non_numeric_cols df = g :: gs.
Proof. rewrite <- non_numeric_cols_first. apply hd_error_some. Qed.

Lemma first_non_numeric_none (df : DataFrame) :
  first_non_numeric df = None -> non_numeric_cols df = [].
Proof. rewrite <- non_numeric_cols_first. apply hd_error_none. Qed.

Lemma first_alias_some (H : Host) (aliases : list string) (df : DataFrame) (x : string) :
  first_alias H aliases df = Some x -> exists xs, aliased H aliases df = x :: xs.
Proof. rewrite <- aliased_first. apply hd_error_some. Qed.

Lemma first_alias_none (H : Host) (aliases : list string) (df : DataFrame) :
  first_alias H aliases df = None -> aliased H aliases df = [].
Proof. rewrite <- aliased_first. apply hd_error_none. Qed.

(** A dataset with a numeric column has a first numeric column, and a first
    column. *)
Lemma has_numeric_first (df : DataFrame) :
  has_numeric df = true -> exists y, first_numeric df = Some y.
Proof.
  unfold has_numeric, first_numeric. intros E.
  destruct (find col_number df) as [c|] eqn:F; simpl; [eauto|].
  apply find_none_existsb in F. congruence.
Qed.

Lemma no_numeric_first (df : DataFrame) :
  has_numeric df = false -> first_numeric df = None.
Proof.
  unfold has_numeric, first_numeric. intros E.
  apply find_none_existsb in E. now rewrite E.
Qed.

Lemma first_numeric_first_column (df : DataFrame) (y : string) :
  first_numeric df = Some y -> exists x, first_column df = Some x.
Proof.
  unfold first_numeric, first_column, columns.
  destruct df as [|c df]; simpl; [discriminate | eauto].
Qed.

Lemma has_alias_first (H : Host) (aliases : list string) (df : DataFrame) :
  has_alias H aliases df = true -> exists g, first_alias H aliases df = Some g.
Proof.
  unfold has_alias, first_alias. intros E.
  destruct (find _ (columns df)) as [c|] eqn:F; [eauto|].
  apply find_none_existsb in F. congruence.
Qed.

Lemma no_alias_first (H : Host) (aliases : list string) (df : DataFrame) :
  has_alias H aliases df = false -> first_alias H aliases df = None.
Proof. unfold has_alias, first_alias. intros E. now apply find_none_existsb. Qed.

(** ** The chart helpers, rule by rule *)

Section Charts.
Variable H : Host.
Variable df : DataFrame.

Lemma auto_chart_placeholder :
  first_numeric df = None -> auto_chart H df = Ok no_numeric_chart.
Proof.
  intros N. unfold auto_chart. now rewrite (first_numeric_none _ N).
Qed.

Lemma auto_chart_line (x y : string) :
  first_numeric df = Some y ->
  first_alias H time_aliases df = Some x ->
  auto_chart H df
  = Ok (dark (px_line df x y ("Trend " ++ y ++ " mengikut " ++ x) true)).
Proof.
  intros N T.
  destruct (first_numeric_some _ _ N) as [ys Ey].
  destruct (first_alias_some _ _ _ _ T) as [xs Ex].
  unfold auto_chart, time_like. rewrite Ey, Ex. reflexivity.
Qed.

Lemma auto_chart_bar (g y : string) :
  first_numeric df = Some y ->
  first_alias H time_aliases df = None ->
  first_non_numeric df = Some g ->
  auto_chart H df
  = Ok (dark (px_bar df g y ("Perbandingan " ++ y ++ " mengikut " ++ g) y)).
Proof.
  intros N T G.
  destruct (first_numeric_some _ _ N) as [ys Ey].
  destruct (first_non_numeric_some _ _ G) as [gs Eg].
  unfold auto_chart, time_like.
  rewrite Ey, (first_alias_none _ _ _ T), Eg. reflexivity.
Qed.

Lemma auto_chart_scatter (c y : string) :
  first_numeric df = Some y ->
  first_alias H time_aliases df = None ->
  first_non_numeric df = None ->
  first_column df = Some c ->
  auto_chart H df
  = Ok (dark (px_scatter (Some df) (Some c) (Some y) ("Hubungan " ++ c ++ " vs " ++ y))).
Proof.
  intros N T G C.
  destruct (first_numeric_some _ _ N) as [ys Ey].
  destruct (hd_error_some _ _ C) as [cs Ec].
  unfold auto_chart, time_like.
  rewrite Ey, (first_alias_none _ _ _ T), (first_non_numeric_none _ G), Ec.
  reflexivity.
Qed.

Lemma multi_graphs_empty : first_numeric df = None -> multi_graphs df = Ok [].
Proof.
  intros N. unfold multi_graphs. now rewrite (first_numeric_none _ N).
Qed.

Lemma multi_graphs_panel (x y : string) :
  first_numeric df = Some y ->
  first_column df = Some x ->
  multi_graphs df = Ok (panel df x y).
Proof.
  intros N C.
  destruct (first_numeric_some _ _ N) as [ys Ey].
  destruct (hd_error_some _ _ C) as [cs Ec].
  unfold multi_graphs. rewrite Ey, Ec. reflexivity.
Qed.

Lemma map_chart_no_geo : first_alias H geo_aliases df = None -> map_chart H df = Ok None.
Proof.
  intros G. unfold map_chart, geo_cols. now rewrite (first_alias_none _ _ _ G).
Qed.

Lemma map_chart_no_numeric : first_numeric df = None -> map_chart H df = Ok None.
Proof.
  intros N. unfold map_chart. rewrite (first_numeric_none _ N).
  now destruct (geo_cols H df).
Qed.

Lemma map_chart_drawn (geo val : string) :
  first_alias H geo_aliases df = Some geo ->
  first_numeric df = Some val ->
  map_chart H df
  = Ok (Some (if str_in (str_lower H geo) world_aliases
              then world_map df geo val
              else regional_map df geo val)).
Proof.
  intros G N.
  destruct (first_numeric_some _ _ N) as [ys Ey].
  destruct (first_alias_some _ _ _ _ G) as [gs Eg].
  unfold map_chart, geo_cols. rewrite Ey, Eg.
  cbn [getitem nth_error bind_result].
  destruct (str_in (str_lower H geo) world_aliases); reflexivity.
Qed.
End Charts.

(** ** The chart selector *)

(** C2. A dataset without a numeric column gets the "no numeric data"
    placeholder as its primary chart, an empty comparison panel and no
    geographic chart; none of the three operations raises. *)
Theorem charts_without_numbers (H : Host) (df : DataFrame) :
  has_numeric df = false ->
  auto_chart H df
  = Ok {| express := px_scatter None None None "⚠️ Tiada data numerik ditemui.";
          layout_template := Some "plotly_dark";
          geos := None |}
  /\ multi_graphs df = Ok []
  /\ map_chart H df = Ok None.
Proof.
  intros N. apply no_numeric_first in N. repeat split.
  - now apply auto_chart_placeholder.
  - now apply multi_graphs_empty.
  - now apply map_chart_no_numeric.
Qed.

Lemma charts_without_numbers_witness :
  has_numeric names_only = false
  /\ auto_chart host_names names_only = Ok no_numeric_chart
  /\ multi_graphs names_only = Ok []
  /\ map_chart host_names names_only = Ok None.
Proof.
  split; [reflexivity | exact (charts_without_numbers host_names names_only eq_refl)].
Defined.

(** C3. With at least one numeric column the primary chart follows the
    ordered rules, [y] being the first numeric column: a line chart with
    markers against the first column whose lower-cased name is a time alias,
    if there is one; otherwise a bar chart grouped by the first non-numeric
    column, if there is one; otherwise a scatter plot of the first column
    against [y]. *)
Theorem primary_chart_rules (H : Host) (df : DataFrame) :
  has_numeric df = true ->
  exists y, first_numeric df = Some y
  /\ (forall x, first_alias H time_aliases df = Some x ->
        auto_chart H df
        = Ok (dark (px_line df x y ("Trend " ++ y ++ " mengikut " ++ x) true)))
  /\ (first_alias H time_aliases df = None ->
      forall g, first_non_numeric df = Some g ->
        auto_chart H df
        = Ok (dark (px_bar df g y ("Perbandingan " ++ y ++ " mengikut " ++ g) y)))
  /\ (first_alias H time_aliases df = None ->
      first_non_numeric df = None ->
      exists c, first_column df = Some c
        /\ auto_chart H df
           = Ok (dark (px_scatter (Some df) (Some c) (Some y)
                         ("Hubungan " ++ c ++ " vs " ++ y)))).
Proof.
  intros N. destruct (has_numeric_first _ N) as [y Ey].
  exists y. split; [exact Ey|]. repeat split.
  - intros x T. now apply auto_chart_line.
  - intros T g G. now apply auto_chart_bar.
  - intros T G. destruct (first_numeric_first_column _ _ Ey) as [c Ec].
    exists c. split; [exact Ec|]. now apply auto_chart_scatter.
Qed.

Lemma primary_chart_rules_witness :
  has_numeric country_gdp = true
  /\ exists y, first_numeric country_gdp = Some y
     /\ (forall x, first_alias host_names time_aliases country_gdp = Some x ->
           auto_chart host_names country_gdp
           = Ok (dark (px_line country_gdp x y ("Trend " ++ y ++ " mengikut " ++ x) true)))
     /\ (first_alias host_names time_aliases country_gdp = None ->
         forall g, first_non_numeric country_gdp = Some g ->
           auto_chart host_names country_gdp
           = Ok (dark (px_bar country_gdp g y ("Perbandingan " ++ y ++ " mengikut " ++ g) y)))
     /\ (first_alias host_names time_aliases country_gdp = None ->
         first_non_numeric country_gdp = None ->
         exists c, first_column country_gdp = Some c
           /\ auto_chart host_names country_gdp
              = Ok (dark (px_scatter (Some country_gdp) (Some c) (Some y)
                            ("Hubungan " ++ c ++ " vs " ++ y)))).
Proof.
  split; [reflexivity | exact (primary_chart_rules host_names country_gdp eq_refl)].
Defined.

(** C4. The comparison panel is exactly a line chart, a bar chart and a
    scatter plot, in that order, of the first numeric column against the first
    column, when the dataset has a numeric column, and empty otherwise.
    [multi_graphs] reads neither the aliases nor the non-numeric columns, so
    the panel does not depend on the rule that chose the primary chart. *)
Theorem comparison_panel (df : DataFrame) :
  (has_numeric df = true ->
   exists x y, first_column df = Some x /\ first_numeric df = Some y
     /\ multi_graphs df
        = Ok [ dark (px_line df x y ("📈 Line Chart " ++ y ++ " vs " ++ x) true);
               dark (px_bar df x y ("📊 Bar Chart " ++ y ++ " vs " ++ x) y);
               dark (px_scatter (Some df) (Some x) (Some y)
                       ("🔍 Scatter Plot " ++ y ++ " vs " ++ x)) ])
  /\ (has_numeric df = false -> multi_graphs df = Ok []).
Proof.
  split; intros N.
  - destruct (has_numeric_first _ N) as [y Ey].
    destruct (first_numeric_first_column _ _ Ey) as [x Ex].
    exists x, y. repeat split; trivial. now apply multi_graphs_panel.
  - apply multi_graphs_empty. now apply no_numeric_first.
Qed.

(** C5. The geographic chart is drawn if and only if some column's lower-cased
    name is a geography alias and some column is numeric; when either is
    missing [map_chart] returns [None] and does not raise. *)
Theorem geographic_chart_iff (H : Host) (df : DataFrame) :
  ((exists fig, map_chart H df = Ok (Some fig))
   <-> has_alias H geo_aliases df = true /\ has_numeric df = true)
  /\ (has_alias H geo_aliases df = false \/ has_numeric df = false ->
      map_chart H df = Ok None).
Proof.
  assert (Off : has_alias H geo_aliases df = false \/ has_numeric df = false ->
                map_chart H df = Ok None).
  { intros [G | N].
    - apply map_chart_no_geo. now apply no_alias_first.
    - apply map_chart_no_numeric. now apply no_numeric_first. }
  split; [split | exact Off].
  - intros [fig E].
    destruct (has_alias H geo_aliases df) eqn:G.
    + destruct (has_numeric df) eqn:N; [auto|].
      rewrite Off in E by auto. discriminate.
    + rewrite Off in E by auto. discriminate.
  - intros [G N].
    destruct (has_alias_first _ _ _ G) as [geo Eg].
    destruct (has_numeric_first _ N) as [val Ev].
    rewrite (map_chart_drawn _ _ _ _ Eg Ev). eauto.
Qed.

(** C6. When the geographic chart is drawn, it is drawn for the first
    geography-aliased column [geo] and the first numeric column [val].  If the
    lower-cased [geo] is one of "country", "negara", "state", the chart is a
    world choropleth locating by country names; otherwise it is a choropleth
    against the Malaysian states' boundary file, keyed by [properties.name],
    with the view fitted to the locations. *)
Theorem geographic_chart_kind (H : Host) (df : DataFrame) (fig : Figure) :
  map_chart H df = Ok (Some fig) ->
  exists geo val,
    first_alias H geo_aliases df = Some geo
    /\ first_numeric df = Some val
    /\ layout_template fig = Some "plotly_dark"
    /\ (str_in (str_lower H geo) ["country"; "negara"; "state"] = true ->
        express fig
        = px_choropleth df geo (Some "country names") None None
            val "Viridis" ("🌍 Peta Dunia: " ++ val)
        /\ geos fig = None)
    /\ (str_in (str_lower H geo) ["country"; "negara"; "state"] = false ->
        express fig
        = px_choropleth df geo None (Some malaysia_geojson) (Some "properties.name")
            val "Blues" ("🗺️ Peta Malaysia: " ++ val)
        /\ geos fig = Some {| fitbounds := "locations"; visible := false |}).
Proof.
  intros E.
  destruct (first_alias H geo_aliases df) as [geo|] eqn:G;
    [| rewrite (map_chart_no_geo _ _ G) in E; discriminate].
  destruct (first_numeric df) as [val|] eqn:N;
    [| rewrite (map_chart_no_numeric _ _ N) in E; discriminate].
  rewrite (map_chart_drawn _ _ _ _ G N) in E.
  exists geo, val. change world_aliases with ["country"; "negara"; "state"] in E.
  set (world := str_in (str_lower H geo) ["country"; "negara"; "state"]) in *.
  destruct world; injection E as <-; repeat split; try reflexivity; discriminate.
Qed.

Lemma geographic_chart_kind_witness :
  map_chart host_names negeri_penduduk
  = Ok (Some (regional_map negeri_penduduk "Negeri" "penduduk"))
  /\ exists geo val,
       first_alias host_names geo_aliases negeri_penduduk = Some geo
       /\ first_numeric negeri_penduduk = Some val
       /\ layout_template (regional_map negeri_penduduk "Negeri" "penduduk")
          = Some "plotly_dark"
       /\ (str_in (str_lower host_names geo) ["country"; "negara"; "state"] = true ->
           express (regional_map negeri_penduduk "Negeri" "penduduk")
           = px_choropleth negeri_penduduk geo (Some "country names") None None
               val "Viridis" ("🌍 Peta Dunia: " ++ val)
           /\ geos (regional_map negeri_penduduk "Negeri" "penduduk") = None)
       /\ (str_in (str_lower host_names geo) ["country"; "negara"; "state"] = false ->
           express (regional_map negeri_penduduk "Negeri" "penduduk")
           = px_choropleth negeri_penduduk geo None (Some malaysia_geojson)
               (Some "properties.name") val "Blues" ("🗺️ Peta Malaysia: " ++ val)
           /\ geos (regional_map negeri_penduduk "Negeri" "penduduk")
              = Some {| fitbounds := "locations"; visible := false |}).
Proof.
  split; [reflexivity |].
  exact (geographic_chart_kind host_names negeri_penduduk
           (regional_map negeri_penduduk "Negeri" "penduduk") eq_refl).
Defined.

(** C10. When a column is time-aliased, the line chart's y-axis is the first
    numeric column whatever that column is, the time column included: if the
    time column [x] is the only numeric column, the chart plots [x] against
    [x]. *)
Theorem line_chart_y_is_first_numeric (H : Host) (df : DataFrame) (x : string) :
  first_alias H time_aliases df = Some x ->
  (forall y, first_numeric df = Some y ->
     auto_chart H df
     = Ok (dark (px_line df x y ("Trend " ++ y ++ " mengikut " ++ x) true)))
  /\ (numeric_cols df = [x] ->
      auto_chart H df
      = Ok (dark (px_line df x x ("Trend " ++ x ++ " mengikut " ++ x) true))).
Proof.
  intros T. split.
  - intros y N. now apply auto_chart_line.
  - intros Only. apply auto_chart_line; [| exact T].
    rewrite <- numeric_cols_first, Only. reflexivity.
Qed.

Lemma line_chart_y_is_first_numeric_witness :
  first_alias host_names time_aliases year_name = Some "year"
  /\ (forall y, first_numeric year_name = Some y ->
        auto_chart host_names year_name
        = Ok (dark (px_line year_name "year" y ("Trend " ++ y ++ " mengikut " ++ "year") true)))
  /\ (numeric_cols year_name = ["year"] ->
      auto_chart host_names year_name
      = Ok (dark (px_line year_name "year" "year" "Trend year mengikut year" true))).
Proof.
  split; [reflexivity |].
  exact (line_chart_y_is_first_numeric host_names year_name "year" eq_refl).
Defined.

(** ** The pipeline, stage by stage *)

Section Pipeline.
Variable H : Host.

Lemma pipeline_stages (file : option Upload) (text_data url query title : option string)
    (t : list Event) :
  pipeline H file text_data url query title t
  = match load_df H file text_data url t with
    | (Ok (Some df), t') => after_load H df query title t'
    | (Ok None, t') => (Ok no_data, t')
    | (Raise e, t') => (Ok (read_error e), t')
    end.
Proof.
  unfold pipeline, bind, try_except.
  destruct (load_df H file text_data url t) as [[[df|]|e] t']; reflexivity.
Qed.

(** NARRATE always yields a narrative: the stripped answer, or the
    placeholder that embeds the error. *)
Lemma narrate_run (df : DataFrame) (query : option string) (t : list Event) :
  narrate H df query t = (Ok (narrative H df query), (t ++ [chat_event H df query])%list).
Proof.
  unfold narrate, narrative, chat_event, try_except, ask_ai, bind, call, chat_messages.
  simpl. destruct (chat_create H _ _ _) as [[text|]|e]; reflexivity.
Qed.

(** EXPORT always yields a triple. *)
Lemma export_total (title : option string) (explanation : string) (figs : list Figure)
    (t : list Event) :
  exists exported t', export H title explanation figs t = (Ok exported, t').
Proof.
  unfold export, try_except.
  destruct (export_body H title explanation figs t) as [[a|e] t'];
    do 2 eexists; reflexivity.
Qed.

(** When EXPORT fails, both paths are [None] and the narrative is
    annotated. *)
Lemma export_failed (title : option string) (explanation : string) (figs : list Figure)
    (t t' : list Event) (text : string) (pdf docx : option string) :
  export H title explanation figs t = (Ok (text, pdf, docx), t') ->
  (text = explanation /\ pdf <> None /\ docx <> None)
  \/ (exists e, text = explanation ++ export_failure e /\ pdf = None /\ docx = None).
Proof.
  unfold export, export_body, try_except, bind, ret.
  destruct (save_images H figs t) as [[imgs|e] t1];
    [| intros E; injection E as <- <- <- <-; right; eauto].
  destruct (export_pdf H _ explanation imgs t1) as [[pdf'|e] t2];
    [| intros E; injection E as <- <- <- <-; right; eauto].
  destruct (export_docx H _ explanation imgs t2) as [[docx'|e] t3];
    [| intros E; injection E as <- <- <- <-; right; eauto].
  intros E; injection E as <- <- <- <-. left. repeat split; discriminate.
Qed.
Lemma auto_chart_total (df : DataFrame) : exists fig, auto_chart H df = Ok fig.
Proof.
  destruct (first_numeric df) as [y|] eqn:N;
    [| rewrite (auto_chart_placeholder _ _ N); eauto].
  destruct (first_alias H time_aliases df) as [x|] eqn:T;
    [rewrite (auto_chart_line _ _ _ _ N T); eauto |].
  destruct (first_non_numeric df) as [g|] eqn:G;
    [rewrite (auto_chart_bar _ _ _ _ N T G); eauto |].
  destruct (first_numeric_first_column _ _ N) as [c C].
  rewrite (auto_chart_scatter _ _ _ _ N T G C); eauto.
Qed.

Lemma map_chart_total (df : DataFrame) : exists mapfig, map_chart H df = Ok mapfig.
Proof.
  destruct (first_alias H geo_aliases df) as [geo|] eqn:G;
    [| rewrite (map_chart_no_geo _ _ G); eauto].
  destruct (first_numeric df) as [val|] eqn:N;
    [| rewrite (map_chart_no_numeric _ _ N); eauto].
  rewrite (map_chart_drawn _ _ _ _ G N); eauto.
Qed.

(** Without a numeric column the run reaches the [return] statement, where
    [figs[0]] raises on the empty panel. *)
Lemma after_load_no_numeric (df : DataFrame) (query title : option string)
    (t : list Event) :
  first_numeric df = None ->
  after_load H df query title t
  = (Raise IndexError,
     snd (export H title (narrative H df query) [no_numeric_chart]
            (t ++ [chat_event H df query])%list)).
Proof.
  intros N. unfold after_load, bind. rewrite narrate_run. unfold lift.
  rewrite (auto_chart_placeholder _ _ N), (multi_graphs_empty _ N),
    (map_chart_no_numeric _ _ N).
  change (all_figures no_numeric_chart [] None) with [no_numeric_chart].
  destruct (export_total title (narrative H df query) [no_numeric_chart]
              (t ++ [chat_event H df query])%list) as ([[text pdf] docx] & t' & E).
  rewrite E. reflexivity.
Qed.
End Pipeline.

(** ** The data loader *)

(** A source counts as given when it is a string that is not empty and not
    made of white space only. *)
Lemma given_some (H : Host) (t : option string) (s : string) :
  given H t = Some s <-> t = Some s /\ s <> "" /\ str_strip H s <> "".
Proof.
  unfold given, truthy. destruct t as [s'|]; [| split; [discriminate | intros [E _]; discriminate]].
  destruct (String.eqb_spec s' ""); simpl.
  - split; [discriminate | intros (E & N & _); congruence].
  - destruct (String.eqb_spec (str_strip H s') ""); simpl.
    + split; [discriminate | intros (E & _ & N); congruence].
    + split; [intros E; injection E as <-; auto | intros (E & _); exact E].
Qed.

Lemma given_none (H : Host) (t : option string) :
  given H t = None
  <-> t = None \/ t = Some "" \/ exists s, t = Some s /\ str_strip H s = "".
Proof.
  unfold given, truthy. destruct t as [s|]; [| split; auto].
  destruct (String.eqb_spec s ""); simpl.
  - subst. split; auto.
  - destruct (String.eqb_spec (str_strip H s) ""); simpl.
    + split; eauto.
    + split; [discriminate|].
      intros [E | [E | (s' & E & N)]]; try discriminate; congruence.
Qed.

(** C7. The loader reads the uploaded file when there is one, whatever the
    pasted text and the URL are; otherwise the pasted text when it is given,
    whatever the URL is; otherwise the URL when it is given.  In each case it
    makes that one read and no other.  When no source is given the pipeline
    makes no call at all and returns the "no data" tuple: the message
    "⚠️ Tiada data", and [None] for every chart and both documents. *)
Theorem source_priority (H : Host) (text_data url query title : option string) :
  (forall f,
     run (load_df H (Some f) text_data url)
     = (result_map Some (read_csv H (PathOrUrl (file_name f))),
        [ev_read_csv (PathOrUrl (file_name f))]))
  /\ (forall s, given H text_data = Some s ->
        run (load_df H None text_data url)
        = (result_map Some (read_csv H (StringIO s)), [ev_read_csv (StringIO s)]))
  /\ (given H text_data = None ->
      forall u, given H url = Some u ->
        run (load_df H None text_data url)
        = (result_map Some (read_csv H (PathOrUrl u)), [ev_read_csv (PathOrUrl u)]))
  /\ (given H text_data = None ->
      given H url = None ->
      run (pipeline H None text_data url query title)
      = (Ok (None, None, None, None, None, "⚠️ Tiada data", None, None), [])).
Proof.
  assert (Read : forall src,
             (df <- pd_read_csv H src ;; ret (Some df)) []
             = (result_map Some (read_csv H src), [ev_read_csv src])).
  { intros src. unfold bind, pd_read_csv, call, ret. simpl.
    destruct (read_csv H src); reflexivity. }
  repeat split.
  - intros f. apply Read.
  - intros s S. unfold run, load_df. rewrite S. apply Read.
  - intros T u U. unfold run, load_df. rewrite T, U. apply Read.
  - intros T U. unfold run. rewrite pipeline_stages. unfold load_df.
    rewrite T, U. reflexivity.
Qed.

(** ** The orchestrator *)

Section Orchestrator.
Variable H : Host.
Variables (file : option Upload) (text_data url query title : option string).

Lemma export_run (explanation : string) (figs : list Figure) (t : list Event) :
  export H title explanation figs t
  = match export_body H title explanation figs t with
    | (Ok exported, t') => (Ok exported, t')
    | (Raise e, t') => (Ok (explanation ++ export_failure e, None, None), t')
    end.
Proof. reflexivity. Qed.

(** The run on a dataset with a numeric column: what EXPORT yields is
    delivered with the charts. *)
Lemma pipeline_with_numbers (df : DataFrame) (t0 : list Event)
    (main : Figure) (figs : list Figure) (mapfig : option Figure) :
  run (load_df H file text_data url) = (Ok (Some df), t0) ->
  has_numeric df = true ->
  auto_chart H df = Ok main ->
  multi_graphs df = Ok figs ->
  map_chart H df = Ok mapfig ->
  run (pipeline H file text_data url query title)
  = match export H title (narrative H df query) (all_figures main figs mapfig)
            (t0 ++ [chat_event H df query])%list with
    | (Ok (text, pdf, docx), t') => (Ok (outputs main figs mapfig text pdf docx), t')
    | (Raise e, t') => (Raise e, t')
    end.
Proof.
  intros L N Em Ef Eg. unfold run in *. rewrite pipeline_stages, L.
  destruct (has_numeric_first _ N) as [y Ey].
  destruct (first_numeric_first_column _ _ Ey) as [x Ex].
  rewrite (multi_graphs_panel _ _ _ Ey Ex) in Ef. injection Ef as <-.
  unfold after_load, bind. rewrite narrate_run. unfold lift.
  rewrite Em, (multi_graphs_panel _ _ _ Ey Ex), Eg.
  destruct (export H title _ _ _) as [[[[text pdf] docx]|e] t']; reflexivity.
Qed.

(** The run on a dataset without a numeric column: the exception of the
    [return] statement escapes, after EXPORT has run. *)
Lemma pipeline_without_numbers (df : DataFrame) (t0 : list Event) :
  run (load_df H file text_data url) = (Ok (Some df), t0) ->
  has_numeric df = false ->
  run (pipeline H file text_data url query title)
  = (Raise IndexError,
     snd (export H title (narrative H df query) [no_numeric_chart]
            (t0 ++ [chat_event H df query])%list)).
Proof.
  intros L N. unfold run in *. rewrite pipeline_stages, L.
  apply after_load_no_numeric. now apply no_numeric_first.
Qed.

(** X1. What a run ends with: a message when no dataset could be loaded, a full
    tuple when the dataset has a numeric column, and an escaping
    [IndexError] when it has none. *)
Theorem pipeline_outcome :
  match outcome (load_df H file text_data url) with
  | Raise e =>
      outcome (pipeline H file text_data url query title)
      = Ok (None, None, None, None, None, "⚠️ Ralat baca data: " ++ exn_str e, None, None)
  | Ok None =>
      outcome (pipeline H file text_data url query title)
      = Ok (None, None, None, None, None, "⚠️ Tiada data", None, None)
  | Ok (Some df) =>
      if has_numeric df
      then exists o, outcome (pipeline H file text_data url query title) = Ok o
      else outcome (pipeline H file text_data url query title) = Raise IndexError
  end.
Proof.
  unfold outcome.
  destruct (run (load_df H file text_data url)) as [[[df|]|e] t0] eqn:L; simpl.
  - destruct (has_numeric df) eqn:N.
    + destruct (auto_chart_total H df) as [main Em].
      destruct (map_chart_total H df) as [mapfig Eg].
      destruct (has_numeric_first _ N) as [y Ey].
      destruct (first_numeric_first_column _ _ Ey) as [x Ex].
      rewrite (pipeline_with_numbers _ _ _ _ _ L N Em (multi_graphs_panel _ _ _ Ey Ex) Eg).
      destruct (export_total H title (narrative H df query)
                  (all_figures main (panel df x y) mapfig)
                  (t0 ++ [chat_event H df query])%list)
        as ([[text pdf] docx] & t' & E).
      rewrite E. simpl. eauto.
    + now rewrite (pipeline_without_numbers _ _ L N).
  - unfold run in *. now rewrite pipeline_stages, L.
  - unfold run in *. now rewrite pipeline_stages, L.
Qed.
End Orchestrator.

(** ** Failures of the narrative service and of the export *)

(** X2. On a dataset with a numeric column, a failure [e] of the chat service is
    recovered: EXPORT runs on the charts with the placeholder narrative
    "⚠️ Gagal AI: e", and the run returns the charts with what EXPORT yields, a
    narrative that starts with the placeholder. *)
Theorem narrative_failure_recovered (H : Host) (file : option Upload)
    (text_data url query title : option string) (df : DataFrame) (t0 : list Event)
    (main : Figure) (figs : list Figure) (mapfig : option Figure) (e : Exn) :
  run (load_df H file text_data url) = (Ok (Some df), t0) ->
  has_numeric df = true ->
  auto_chart H df = Ok main ->
  multi_graphs df = Ok figs ->
  map_chart H df = Ok mapfig ->
  chat_create H "gpt-4o-mini"
    (chat_messages (str_or query default_question) (head_to_string H df)) (4 # 10)
  = Raise e ->
  exists text pdf docx t',
    export H title ("⚠️ Gagal AI: " ++ exn_str e) (all_figures main figs mapfig)
      (t0 ++ [chat_event H df query])%list
    = (Ok (text, pdf, docx), t')
    /\ run (pipeline H file text_data url query title)
       = (Ok (outputs main figs mapfig text pdf docx), t')
    /\ (text = "⚠️ Gagal AI: " ++ exn_str e
        \/ exists e', text = ("⚠️ Gagal AI: " ++ exn_str e) ++ export_failure e').
Proof.
  intros L N Em Ef Eg Chat.
  rewrite (pipeline_with_numbers _ _ _ _ query title _ _ _ _ _ L N Em Ef Eg).
  assert (Text : narrative H df query = "⚠️ Gagal AI: " ++ exn_str e)
    by (unfold narrative; now rewrite Chat).
  rewrite Text.
  destruct (export_total H title ("⚠️ Gagal AI: " ++ exn_str e)
              (all_figures main figs mapfig) (t0 ++ [chat_event H df query])%list)
    as ([[text pdf] docx] & t' & E).
  exists text, pdf, docx, t'. rewrite E. repeat split.
  destruct (export_failed _ _ _ _ _ _ _ _ _ E) as [(-> & _) | (e' & -> & _)]; eauto.
Qed.

(** X3. On a dataset with a numeric column, when rasterising the charts or
    writing either document raises [e], the run returns the charts drawn
    before, the narrative followed by the failure note, and [None] for both
    documents. *)
Theorem export_failure_keeps_charts (H : Host) (file : option Upload)
    (text_data url query title : option string) (df : DataFrame) (t0 t' : list Event)
    (main : Figure) (figs : list Figure) (mapfig : option Figure) (e : Exn) :
  run (load_df H file text_data url) = (Ok (Some df), t0) ->
  has_numeric df = true ->
  auto_chart H df = Ok main ->
  multi_graphs df = Ok figs ->
  map_chart H df = Ok mapfig ->
  export_body H title (narrative H df query) (all_figures main figs mapfig)
    (t0 ++ [chat_event H df query])%list
  = (Raise e, t') ->
  run (pipeline H file text_data url query title)
  = (Ok (outputs main figs mapfig
           (narrative H df query ++ nl ++ "⚠️ Gagal export: " ++ exn_str e) None None),
     t').
Proof.
  intros L N Em Ef Eg Fail.
  rewrite (pipeline_with_numbers _ _ _ _ query title _ _ _ _ _ L N Em Ef Eg).
  rewrite export_run, Fail. reflexivity.
Qed.

Lemma narrative_failure_recovered_witness :
  exists text pdf docx t',
    export host_sales_no_ai None ("⚠️ Gagal AI: " ++ exn_str ConnectionError)
      (all_figures sales_line (panel year_sales "year" "year") None)
      ([ev_read_csv (StringIO sales_csv)] ++ [chat_event host_sales_no_ai year_sales None])%list
    = (Ok (text, pdf, docx), t')
    /\ run (pipeline host_sales_no_ai None (Some sales_csv) None None None)
       = (Ok (outputs sales_line (panel year_sales "year" "year") None text pdf docx), t')
    /\ (text = "⚠️ Gagal AI: " ++ exn_str ConnectionError
        \/ exists e', text = ("⚠️ Gagal AI: " ++ exn_str ConnectionError) ++ export_failure e').
Proof.
  exact (narrative_failure_recovered host_sales_no_ai None (Some sales_csv) None None None
           year_sales [ev_read_csv (StringIO sales_csv)]
           sales_line (panel year_sales "year" "year") None ConnectionError
           eq_refl eq_refl eq_refl eq_refl eq_refl eq_refl).
Defined.

Lemma export_failure_keeps_charts_witness :
  run (pipeline host_sales_no_image None (Some sales_csv) None None None)
  = (Ok (outputs sales_line (panel year_sales "year" "year") None
           ("Ringkasan." ++ nl ++ "⚠️ Gagal export: " ++ exn_str KaleidoError) None None),
     [ev_read_csv (StringIO sales_csv);
      chat_event host_sales_no_image year_sales None;
      ev_write_image sales_line "/tmp/chart_1.png" 2]).
Proof.
  exact (export_failure_keeps_charts host_sales_no_image None (Some sales_csv) None None None
           year_sales [ev_read_csv (StringIO sales_csv)]
           [ev_read_csv (StringIO sales_csv);
            chat_event host_sales_no_image year_sales None;
            ev_write_image sales_line "/tmp/chart_1.png" 2]
           sales_line (panel year_sales "year" "year") None KaleidoError
           eq_refl eq_refl eq_refl eq_refl eq_refl eq_refl).
Defined.

(** ** Runs on a dataset without a numeric column

    The pasted text [names_csv] holds two columns of strings.  [auto_chart]
    answers with its placeholder, [multi_graphs] with the empty panel, and the
    [return] statement of [pipeline] then indexes the empty panel. *)

(** C1 (violated). Every service works, the report is exported, and the run
    still ends with an [IndexError] that escapes to the caller: no tuple and
    no message are returned. *)
Theorem pipeline_escapes_without_numbers :
  run (load_df host_names None (Some names_csv) None)
  = (Ok (Some names_only), [ev_read_csv (StringIO names_csv)])
  /\ has_numeric names_only = false
  /\ run (pipeline host_names None (Some names_csv) None None None)
     = (Raise IndexError,
        [ ev_read_csv (StringIO names_csv);
          names_chat;
          ev_write_image no_numeric_chart "/tmp/chart_1.png" 2;
          ev_pdf_build "/tmp/laporan.pdf"
            [ Paragraph "📊 Laporan AIzz Data Analyst" "Title"; Spacer 1 12;
              Paragraph "Analisis Ringkas" "Heading2";
              Paragraph "Ringkasan." "Normal"; Spacer 1 12;
              Paragraph "Graf 1" "Heading3"; RLImage "/tmp/chart_1.png" 400 250;
              Spacer 1 12 ];
          ev_docx_save "/tmp/laporan.docx"
            [ add_heading "📊 Laporan AIzz Data Analyst" 1;
              add_heading "Analisis Ringkas" 2; add_paragraph "Ringkasan.";
              add_heading "Graf 1" 3; add_picture "/tmp/chart_1.png" 6 ] ]).
Proof. repeat split. Qed.

(** C8 (violated). The chat service is unreachable: the placeholder narrative
    is made and both documents are written with it, but no narrative is
    returned, because the run ends with the escaping [IndexError]. *)
Theorem narrative_failure_lost_without_numbers :
  chat_create host_names_no_ai "gpt-4o-mini"
    (chat_messages "Terangkan trend utama" "name city") (4 # 10)
  = Raise ConnectionError
  /\ outcome (pipeline host_names_no_ai None (Some names_csv) None None None)
     = Raise IndexError
  /\ In (ev_pdf_build "/tmp/laporan.pdf"
           [ Paragraph "📊 Laporan AIzz Data Analyst" "Title"; Spacer 1 12;
             Paragraph "Analisis Ringkas" "Heading2";
             Paragraph "⚠️ Gagal AI: Connection error." "Normal"; Spacer 1 12;
             Paragraph "Graf 1" "Heading3"; RLImage "/tmp/chart_1.png" 400 250;
             Spacer 1 12 ])
        (events (pipeline host_names_no_ai None (Some names_csv) None None None)).
Proof.
  repeat split. vm_compute. do 3 right. left. reflexivity.
Qed.

(** C9 (violated). The image writer fails: EXPORT recovers, but the run ends
    with the escaping [IndexError] instead of returning the placeholder chart,
    the annotated narrative and [None] for both documents. *)
Theorem export_failure_lost_without_numbers :
  write_image host_names_no_image no_numeric_chart "/tmp/chart_1.png" 2 = Raise KaleidoError
  /\ export host_names_no_image None "Ringkasan." [no_numeric_chart]
       [ev_read_csv (StringIO names_csv); names_chat]
     = (Ok ("Ringkasan." ++ nl ++ "⚠️ Gagal export: " ++ exn_str KaleidoError, None, None),
        [ ev_read_csv (StringIO names_csv); names_chat;
          ev_write_image no_numeric_chart "/tmp/chart_1.png" 2 ])
  /\ run (pipeline host_names_no_image None (Some names_csv) None None None)
     = (Raise IndexError,
        [ ev_read_csv (StringIO names_csv); names_chat;
          ev_write_image no_numeric_chart "/tmp/chart_1.png" 2 ]).
Proof. repeat split. Qed.

(** ** Worked examples *)

Example year_sales_charts :
  auto_chart host_sales year_sales = Ok sales_line
  /\ multi_graphs year_sales = Ok (panel year_sales "year" "year")
  /\ map_chart host_sales year_sales = Ok None.
Proof. repeat split. Qed.

Example country_gdp_charts :
  auto_chart host_sales country_gdp
  = Ok (dark (px_bar country_gdp "country" "gdp" "Perbandingan gdp mengikut country" "gdp"))
  /\ map_chart host_sales country_gdp = Ok (Some (world_map country_gdp "country" "gdp")).
Proof. repeat split. Qed.

Example alias_match_ignores_case :
  auto_chart host_sales [number "Sales"; object "YEAR"]
  = Ok (dark (px_line [number "Sales"; object "YEAR"] "YEAR" "Sales"
                "Trend Sales mengikut YEAR" true))
  /\ map_chart host_sales [object "State"; number "gdp"]
     = Ok (Some (world_map [object "State"; number "gdp"] "State" "gdp"))
  /\ map_chart host_sales negeri_penduduk
     = Ok (Some (regional_map negeri_penduduk "Negeri" "penduduk")).
Proof. repeat split. Qed.

Example numbers_only_scatter :
  auto_chart host_sales [number "a"; number "b"]
  = Ok (dark (px_scatter (Some [number "a"; number "b"]) (Some "a") (Some "a")
                "Hubungan a vs a")).
Proof. reflexivity. Qed.

Example file_wins :
  run (load_df host_sales (Some {| file_name := "data.csv" |}) (Some sales_csv)
         (Some "https://example.org/x.csv"))
  = (Raise ParserError, [ev_read_csv (PathOrUrl "data.csv")]).
Proof. reflexivity. Qed.

Example blank_text_is_skipped :
  run (load_df host_sales None (Some "   ") (Some "https://example.org/x.csv"))
  = (Raise ParserError, [ev_read_csv (PathOrUrl "https://example.org/x.csv")])
  /\ run (pipeline host_sales None (Some "   ") (Some "") None None) = (Ok no_data, []).
Proof. split; reflexivity. Qed.

Example unreadable_source_is_reported :
  run (pipeline host_sales (Some {| file_name := "data.csv" |}) None None None None)
  = (Ok (None, None, None, None, None, "⚠️ Ralat baca data: Error tokenizing data",
         None, None),
     [ev_read_csv (PathOrUrl "data.csv")]).
Proof. reflexivity. Qed.

Example split_keeps_empty_pieces :
  str_split LF ("a" ++ nl ++ nl ++ "b" ++ nl) = ["a"; ""; "b"; ""]
  /\ str_split LF "" = [""].
Proof. split; reflexivity. Qed.

Example full_run :
  outcome (pipeline host_sales None (Some sales_csv) None None (Some "Jualan"))
  = Ok (outputs sales_line (panel year_sales "year" "year") None "Ringkasan."
          (Some "/tmp/laporan.pdf") (Some "/tmp/laporan.docx")).
Proof. reflexivity. Qed.

(** * Further properties of the program *)

(** ** The charts of a dataset *)

Lemma first_numeric_in (df : DataFrame) (y : string) :
  first_numeric df = Some y -> In y (columns df).
Proof.
  unfold first_numeric, columns. destruct (find col_number df) as [c|] eqn:F; [|discriminate].
  intros E. injection E as <-. apply in_map. now apply find_some in F.
Qed.

Lemma first_non_numeric_in (df : DataFrame) (g : string) :
  first_non_numeric df = Some g -> In g (columns df).
Proof.
  unfold first_non_numeric, columns.
  destruct (find _ df) as [c|] eqn:F; [|discriminate].
  intros E. injection E as <-. apply in_map. now apply find_some in F.
Qed.

Lemma first_alias_in (H : Host) (aliases : list string) (df : DataFrame) (x : string) :
  first_alias H aliases df = Some x -> In x (columns df).
Proof. unfold first_alias. intros F. now apply find_some in F. Qed.

Lemma first_column_in (df : DataFrame) (c : string) :
  first_column df = Some c -> In c (columns df).
Proof.
  unfold first_column. destruct (columns df); simpl; [discriminate|].
  intros E. injection E as <-. now left.
Qed.

(** The three chart operations, case by case on the dataset. *)
Lemma chart_stage_cases (H : Host) (df : DataFrame) :
  (first_numeric df = None
   /\ auto_chart H df = Ok no_numeric_chart
   /\ multi_graphs df = Ok [] /\ map_chart H df = Ok None)
  \/ (exists x y main mapfig,
        first_column df = Some x /\ first_numeric df = Some y
        /\ auto_chart H df = Ok main
        /\ incl (axes (express main)) (columns df)
        /\ layout_template main = Some "plotly_dark"
        /\ multi_graphs df = Ok (panel df x y)
        /\ map_chart H df = Ok mapfig
        /\ match mapfig with
           | Some m => has_alias H geo_aliases df = true
                       /\ incl (axes (express m)) (columns df)
                       /\ layout_template m = Some "plotly_dark"
           | None => has_alias H geo_aliases df = false
           end).
Proof.
  destruct (first_numeric df) as [y|] eqn:N.
  2:{ left. repeat split.
      - now apply auto_chart_placeholder.
      - now apply multi_graphs_empty.
      - now apply map_chart_no_numeric. }
  right. destruct (first_numeric_first_column _ _ N) as [x C].
  pose proof (first_numeric_in _ _ N) as Iy.
  pose proof (first_column_in _ _ C) as Ix.
  assert (Main : exists main, auto_chart H df = Ok main
                 /\ incl (axes (express main)) (columns df)
                 /\ layout_template main = Some "plotly_dark").
  { destruct (first_alias H time_aliases df) as [t|] eqn:T.
    - eexists. split; [now apply (auto_chart_line _ _ t y)|]. split; [|reflexivity].
      pose proof (first_alias_in _ _ _ _ T). intros c [<-|[<-|[]]]; assumption.
    - destruct (first_non_numeric df) as [g|] eqn:G.
      + eexists. split; [now apply (auto_chart_bar _ _ g y)|]. split; [|reflexivity].
        pose proof (first_non_numeric_in _ _ G). intros c [<-|[<-|[<-|[]]]]; assumption.
      + eexists. split; [now apply (auto_chart_scatter _ _ x y)|]. split; [|reflexivity].
        intros c [<-|[<-|[]]]; assumption. }
  destruct Main as (main & Em & Am & Tm).
  assert (Map : exists mapfig, map_chart H df = Ok mapfig
                /\ match mapfig with
                   | Some m => has_alias H geo_aliases df = true
                               /\ incl (axes (express m)) (columns df)
                               /\ layout_template m = Some "plotly_dark"
                   | None => has_alias H geo_aliases df = false
                   end).
  { destruct (first_alias H geo_aliases df) as [geo|] eqn:G.
    - eexists. split; [now apply (map_chart_drawn _ _ geo y)|].
      pose proof (first_alias_in _ _ _ _ G) as Ig.
      assert (A : has_alias H geo_aliases df = true).
      { destruct (has_alias H geo_aliases df) eqn:A; [reflexivity|].
        apply no_alias_first in A. congruence. }
      destruct (str_in (str_lower H geo) world_aliases); (split; [exact A|]);
        (split; [intros c [<-|[<-|[]]]; assumption | reflexivity]).
    - exists None. split; [now apply map_chart_no_geo|].
      destruct (has_alias H geo_aliases df) eqn:A; [|reflexivity].
      destruct (has_alias_first _ _ _ A) as [g Eg]. congruence. }
  destruct Map as (mapfig & Eg & Pg).
  exists x, y, main, mapfig. repeat split; trivial. now apply multi_graphs_panel.
Qed.

Lemma first_numeric_has (df : DataFrame) :
  has_numeric df = match first_numeric df with Some _ => true | None => false end.
Proof.
  destruct (has_numeric df) eqn:N.
  - destruct (has_numeric_first _ N) as [y ->]. reflexivity.
  - now rewrite (no_numeric_first _ N).
Qed.

(** X4. Drawing the charts never raises, for any dataset, and the report holds
    one chart when no column is numeric, and otherwise four charts, or five
    when a geography column exists. *)
Theorem chart_stage_total (H : Host) (df : DataFrame) :
  exists main figs mapfig,
    auto_chart H df = Ok main
    /\ multi_graphs df = Ok figs
    /\ map_chart H df = Ok mapfig
    /\ List.length (all_figures main figs mapfig)
       = if has_numeric df
         then if has_alias H geo_aliases df then 5%nat else 4%nat
         else 1%nat.
Proof.
  rewrite first_numeric_has.
  destruct (chart_stage_cases H df)
    as [(N & Em & Ef & Eg) | (x & y & main & mapfig & C & N & Em & _ & _ & Ef & Eg & Pg)].
  - exists no_numeric_chart, [], None. rewrite N. repeat split; trivial.
  - exists main, (panel df x y), mapfig. rewrite N. repeat split; trivial.
    destruct mapfig as [m|]; [destruct Pg as (-> & _) | rewrite Pg]; reflexivity.
Qed.

(** X5. Every chart of the report has the dark template, and refers only to
    columns of the dataset. *)
Theorem charts_dark_and_on_columns (H : Host) (df : DataFrame)
    (main : Figure) (figs : list Figure) (mapfig : option Figure) :
  auto_chart H df = Ok main ->
  multi_graphs df = Ok figs ->
  map_chart H df = Ok mapfig ->
  Forall (fun fig => layout_template fig = Some "plotly_dark"
                     /\ incl (axes (express fig)) (columns df))
         (all_figures main figs mapfig).
Proof.
  intros Em Ef Eg.
  destruct (chart_stage_cases H df)
    as [(N & Em' & Ef' & Eg')
       | (x & y & main' & mapfig' & C & N & Em' & Am & Tm & Ef' & Eg' & Pg)];
    rewrite Em' in Em; rewrite Ef' in Ef; rewrite Eg' in Eg;
    injection Em as <-; injection Ef as <-; injection Eg as <-.
  - repeat constructor. intros c [].
  - pose proof (first_numeric_in _ _ N) as Iy.
    pose proof (first_column_in _ _ C) as Ix.
    unfold all_figures. apply Forall_app. split; [repeat constructor; trivial|].
    apply Forall_app. split.
    + repeat constructor; simpl; intros c In_c;
        repeat (destruct In_c as [<-|In_c]; trivial); destruct In_c.
    + destruct mapfig' as [m|]; [|constructor].
      destruct Pg as (_ & Ag & Tg). repeat constructor; trivial.
Qed.

Lemma charts_dark_and_on_columns_witness :
  Forall (fun fig => layout_template fig = Some "plotly_dark"
                     /\ incl (axes (express fig)) (columns country_gdp))
    (all_figures
       (dark (px_bar country_gdp "country" "gdp" "Perbandingan gdp mengikut country" "gdp"))
       (panel country_gdp "country" "gdp")
       (Some (world_map country_gdp "country" "gdp"))).
Proof.
  exact (charts_dark_and_on_columns host_sales country_gdp _ _ _ eq_refl eq_refl eq_refl).
Defined.

(** ** Rasterising the charts *)

Lemma write_images_step (H : Host) (f : Figure) (rest : list Figure) (start : nat)
    (t : list Event) :
  write_images H (enumerate (f :: rest) start) t
  = match write_image H f (chart_path H start) 2 with
    | Ok _ =>
        match write_images H (enumerate rest (S start))
                (t ++ [ev_write_image f (chart_path H start) 2])%list with
        | (Ok paths, t') => (Ok (chart_path H start :: paths), t')
        | (Raise e, t') => (Raise e, t')
        end
    | Raise e => (Raise e, (t ++ [ev_write_image f (chart_path H start) 2])%list)
    end.
Proof.
  simpl. unfold bind, call, ret, chart_path.
  destruct (write_image H f _ 2); [|reflexivity].
  destruct (write_images H (enumerate rest (S start)) _) as [[paths|e] t']; reflexivity.
Qed.

Lemma write_images_ok (H : Host) (figs : list Figure) :
  forall (start : nat) (t : list Event),
    (forall i f, nth_error figs i = Some f ->
                 write_image H f (chart_path H (start + i)%nat) 2 = Ok tt) ->
    write_images H (enumerate figs start) t
    = (Ok (image_paths H start (List.length figs)), (t ++ write_events H figs start)%list).
Proof.
  induction figs as [|f rest IH]; intros start t Good.
  - simpl. unfold ret, write_events. simpl. now rewrite app_nil_r.
  - rewrite write_images_step.
    pose proof (Good 0%nat f eq_refl) as G0. rewrite Nat.add_0_r in G0. rewrite G0.
    rewrite IH.
    + unfold write_events, image_paths. simpl. now rewrite <- app_assoc.
    + intros i g Ei. rewrite Nat.add_succ_comm. now apply (Good (S i)).
Qed.

Lemma write_images_fail (H : Host) (pre : list Figure) (f : Figure) (post : list Figure)
    (e : Exn) :
  forall (start : nat) (t : list Event),
    (forall i g, nth_error pre i = Some g ->
                 write_image H g (chart_path H (start + i)%nat) 2 = Ok tt) ->
    write_image H f (chart_path H (start + List.length pre)%nat) 2 = Raise e ->
    write_images H (enumerate (pre ++ f :: post) start) t
    = (Raise e, (t ++ write_events H (pre ++ [f]) start)%list).
Proof.
  induction pre as [|g pre IH]; intros start t Good Bad.
  - simpl app. rewrite write_images_step. simpl in Bad. rewrite Nat.add_0_r in Bad.
    now rewrite Bad.
  - change ((g :: pre) ++ f :: post)%list with (g :: (pre ++ f :: post))%list.
    rewrite write_images_step.
    pose proof (Good 0%nat g eq_refl) as G0. rewrite Nat.add_0_r in G0. rewrite G0.
    rewrite IH.
    + unfold write_events. simpl. now rewrite <- app_assoc.
    + intros i h Ei. rewrite Nat.add_succ_comm. now apply (Good (S i)).
    + rewrite Nat.add_succ_comm. exact Bad.
Qed.

(** Whatever happens, rasterising logs writes of charts and nothing else. *)
Lemma write_images_trace (H : Host) (figs : list Figure) :
  forall (start : nat) (t : list Event),
  exists evs,
    snd (write_images H (enumerate figs start) t) = (t ++ evs)%list
    /\ forallb is_export evs = true /\ existsb is_chat evs = false.
Proof.
  induction figs as [|f rest IH]; intros start t.
  - exists []. simpl. now rewrite app_nil_r.
  - rewrite write_images_step.
    destruct (write_image H f (chart_path H start) 2).
    + destruct (IH (S start) (t ++ [ev_write_image f (chart_path H start) 2])%list)
        as (evs & E & X & C).
      exists (ev_write_image f (chart_path H start) 2 :: evs).
      destruct (write_images H (enumerate rest (S start)) _) as [[paths|e] t'];
        simpl in *; subst t'; rewrite <- app_assoc; auto.
    + exists [ev_write_image f (chart_path H start) 2]. auto.
Qed.

(** X6. When every write succeeds, [save_images] writes each chart once, in
    order, to [chart_1.png], [chart_2.png], ... under the temporary directory,
    and returns these paths, one per chart. *)
Theorem save_images_all_written (H : Host) (figs : list Figure) (t : list Event) :
  (forall i f, nth_error figs i = Some f ->
               write_image H f (chart_path H (S i)) 2 = Ok tt) ->
  save_images H figs t
  = (Ok (map (fun i => path_join (gettempdir H) ("chart_" ++ str_of_nat i ++ ".png"))
           (seq 1 (List.length figs))),
     (t ++ write_events H figs 1)%list).
Proof.
  intros Good. unfold save_images. now apply write_images_ok.
Qed.

Lemma save_images_all_written_witness :
  save_images host_sales [sales_line; no_numeric_chart] []
  = (Ok ["/tmp/chart_1.png"; "/tmp/chart_2.png"],
     [ev_write_image sales_line "/tmp/chart_1.png" 2;
      ev_write_image no_numeric_chart "/tmp/chart_2.png" 2]).
Proof.
  exact (save_images_all_written host_sales [sales_line; no_numeric_chart] []
           (fun _ _ _ => eq_refl)).
Defined.

(** X7. [save_images] stops at the first chart whose write raises: the
    exception is raised, the charts before it and the failing one were
    attempted in order, and no later chart is written. *)
Theorem save_images_stops_at_first_failure (H : Host)
    (pre : list Figure) (f : Figure) (post : list Figure) (e : Exn) (t : list Event) :
  (forall i g, nth_error pre i = Some g ->
               write_image H g (chart_path H (S i)) 2 = Ok tt) ->
  write_image H f (chart_path H (S (List.length pre))) 2 = Raise e ->
  save_images H (pre ++ f :: post) t
  = (Raise e, (t ++ write_events H (pre ++ [f]) 1)%list).
Proof.
  intros Good Bad. unfold save_images. now apply write_images_fail.
Qed.

Lemma save_images_stops_at_first_failure_witness :
  save_images host_disk_full ([sales_line] ++ no_numeric_chart :: [sales_line]) []
  = (Raise DiskError,
     [ev_write_image sales_line "/tmp/chart_1.png" 2;
      ev_write_image no_numeric_chart "/tmp/chart_2.png" 2]).
Proof.
  refine (save_images_stops_at_first_failure host_disk_full
            [sales_line] no_numeric_chart [sales_line] DiskError [] _ eq_refl).
  intros [|[|i]] g E; try discriminate E; reflexivity.
Defined.

(** ** The paths of the chart images *)

Lemma to_uint_not_nil (n : nat) : Nat.to_uint n <> Decimal.Nil.
Proof.
  intros E. pose proof (DecimalNat.Unsigned.of_to n) as R. rewrite E in R.
  simpl in R. subst n. discriminate E.
Qed.

Lemma str_of_nat_inj (n m : nat) : str_of_nat n = str_of_nat m -> n = m.
Proof.
  unfold str_of_nat. intros E.
  apply DecimalNat.Unsigned.to_uint_inj.
  pose proof (NilZero.usu _ (to_uint_not_nil n)) as Rn.
  pose proof (NilZero.usu _ (to_uint_not_nil m)) as Rm.
  rewrite E in Rn. rewrite Rn in Rm. now injection Rm.
Qed.

Lemma append_cancel_l (p a b : string) : p ++ a = p ++ b -> a = b.
Proof.
  induction p as [|c p IH]; simpl; [trivial|].
  intros E. injection E as E. now apply IH.
Qed.

Lemma list_ascii_of_append (a b : string) :
  list_ascii_of_string (a ++ b)
  = (list_ascii_of_string a ++ list_ascii_of_string b)%list.
Proof. induction a as [|c a IH]; simpl; [reflexivity | now rewrite IH]. Qed.

Lemma append_cancel_r (a b s : string) : a ++ s = b ++ s -> a = b.
Proof.
  intros E. apply (f_equal list_ascii_of_string) in E.
  rewrite !list_ascii_of_append in E. apply app_inv_tail in E.
  apply (f_equal string_of_list_ascii) in E.
  now rewrite !string_of_list_ascii_of_string in E.
Qed.

Lemma chart_path_inj (H : Host) (i j : nat) : chart_path H i = chart_path H j -> i = j.
Proof.
  unfold chart_path, path_join. simpl.
  intros E. apply str_of_nat_inj.
  destruct (_ || _)%bool.
  - apply append_cancel_l in E. injection E as E. now apply append_cancel_r in E.
  - apply append_cancel_l in E. injection E as E. now apply append_cancel_r in E.
Qed.

Lemma NoDup_map_injective {A B} (f : A -> B) (l : list A) :
  (forall x y, f x = f y -> x = y) -> NoDup l -> NoDup (map f l).
Proof.
  intros Inj. induction 1 as [|x l Nx _ IH]; simpl; constructor; [|exact IH].
  intros I. apply in_map_iff in I. destruct I as (y & E & Iy).
  apply Inj in E. now subst y.
Qed.

(** X8. The charts of one run are written to pairwise distinct files: the
    paths [chart_1.png], ..., [chart_n.png] under the temporary directory are
    all different, whatever the directory is. *)
Theorem image_paths_distinct (H : Host) (n : nat) :
  NoDup (map (fun i => path_join (gettempdir H) ("chart_" ++ str_of_nat i ++ ".png"))
           (seq 1 n)).
Proof.
  apply NoDup_map_injective; [|apply seq_NoDup].
  intros i j E. now apply (chart_path_inj H).
Qed.

(** ** The two documents *)

Lemma str_split_not_nil (sep : ascii) (s : string) : str_split sep s <> [].
Proof.
  destruct s as [|c s]; simpl; [discriminate|].
  destruct (Ascii.eqb c sep); [discriminate|].
  destruct (str_split sep s); discriminate.
Qed.

(** Joining the pieces with the separator gives the string back. *)
Lemma split_join (s : string) : String.concat nl (str_split LF s) = s.
Proof.
  induction s as [|c s IH]; [reflexivity|]. simpl str_split.
  destruct (Ascii.eqb_spec c LF) as [->|Ne].
  - pose proof (str_split_not_nil LF s) as NN.
    destruct (str_split LF s) as [|w ws]; [contradiction|].
    change (String.concat nl ("" :: w :: ws)) with (String LF (String.concat nl (w :: ws))).
    now rewrite IH.
  - pose proof (str_split_not_nil LF s) as NN.
    destruct (str_split LF s) as [|w ws]; [contradiction|].
    destruct ws as [|w' ws]; simpl in *; now rewrite IH.
Qed.

(** No piece holds the separator. *)
Lemma split_pieces (s : string) : Forall (fun p => has_LF p = false) (str_split LF s).
Proof.
  induction s as [|c s IH]; [repeat constructor|]. simpl str_split.
  destruct (Ascii.eqb c LF) eqn:Ec.
  - constructor; [reflexivity | exact IH].
  - destruct (str_split LF s) as [|w ws]; [repeat constructor; simpl; now rewrite Ec|].
    inversion IH as [|? ? Hw Hws]; subst.
    constructor; [simpl; now rewrite Ec, Hw | exact Hws].
Qed.

Lemma enumerate_fst {A} (l : list A) :
  forall start, map fst (enumerate l start) = seq start (List.length l).
Proof. induction l as [|x l IH]; intros start; simpl; [reflexivity | now rewrite IH]. Qed.

Lemma enumerate_snd {A} (l : list A) : forall start, map snd (enumerate l start) = l.
Proof. induction l as [|x l IH]; intros start; simpl; [reflexivity | now rewrite IH]. Qed.

Section Story.
Variable style : string.

Lemma story_paragraphs_app (a b : list Flowable) :
  story_paragraphs style (a ++ b)
  = (story_paragraphs style a ++ story_paragraphs style b)%list.
Proof. apply flat_map_app. Qed.

Lemma paragraphs_of_lines (own : string) (lines : list string) :
  story_paragraphs style (map (fun p => Paragraph p own) lines)
  = if String.eqb own style then lines else [].
Proof.
  unfold story_paragraphs.
  induction lines as [|l lines IH];
    [cbn [flat_map map]; now destruct (String.eqb own style)|].
  cbn [flat_map map]. rewrite IH. destruct (String.eqb own style); reflexivity.
Qed.

Lemma paragraphs_of_charts (items : list (nat * string)) :
  story_paragraphs style
    (flat_map (fun ip => [Paragraph ("Graf " ++ str_of_nat (fst ip)) "Heading3";
                          RLImage (snd ip) 400 250;
                          Spacer 1 12]) items)
  = if String.eqb "Heading3" style
    then map (fun i => "Graf " ++ str_of_nat i) (map fst items)
    else [].
Proof.
  unfold story_paragraphs.
  induction items as [|ip items IH];
    [cbn [flat_map map]; now destruct (String.eqb "Heading3" style)|].
  cbn [flat_map app map]. rewrite IH.
  destruct (String.eqb "Heading3" style); reflexivity.
Qed.
End Story.

Lemma story_images_app (a b : list Flowable) :
  story_images (a ++ b) = (story_images a ++ story_images b)%list.
Proof. apply flat_map_app. Qed.

Lemma images_of_charts (items : list (nat * string)) :
  story_images
    (flat_map (fun ip => [Paragraph ("Graf " ++ str_of_nat (fst ip)) "Heading3";
                          RLImage (snd ip) 400 250;
                          Spacer 1 12]) items)
  = map snd items.
Proof.
  unfold story_images. induction items as [|ip items IH]; [reflexivity|].
  cbn [flat_map app map]. now rewrite IH.
Qed.

Lemma images_of_lines (own : string) (lines : list string) :
  story_images (map (fun p => Paragraph p own) lines) = [].
Proof. unfold story_images. induction lines; simpl; trivial. Qed.

(** What the story of [export_pdf] holds. *)
Lemma pdf_story_facts (title text : string) (images : list string) (story : list Flowable) :
  story = ([Paragraph title "Title"; Spacer 1 12; Paragraph "Analisis Ringkas" "Heading2"]
          ++ map (fun p => Paragraph p "Normal") (str_split LF text)
          ++ [Spacer 1 12]
          ++ flat_map (fun ip => [Paragraph ("Graf " ++ str_of_nat (fst ip)) "Heading3";
                                  RLImage (snd ip) 400 250;
                                  Spacer 1 12])
                      (enumerate images 1))%list ->
  story_paragraphs "Title" story = [title]
  /\ story_paragraphs "Heading2" story = ["Analisis Ringkas"]
  /\ String.concat nl (story_paragraphs "Normal" story) = text
  /\ Forall (fun p => has_LF p = false) (story_paragraphs "Normal" story)
  /\ story_paragraphs "Heading3" story = chart_headings (List.length images)
  /\ story_images story = images.
Proof.
  intros ->.
  rewrite !story_paragraphs_app, !story_images_app.
  rewrite !paragraphs_of_lines, !paragraphs_of_charts, images_of_lines, images_of_charts.
  rewrite enumerate_fst, enumerate_snd.
  change (story_paragraphs "Title" [Paragraph title "Title"; Spacer 1 12;
                                    Paragraph "Analisis Ringkas" "Heading2"])
    with [title].
  change (story_paragraphs "Heading2" [Paragraph title "Title"; Spacer 1 12;
                                       Paragraph "Analisis Ringkas" "Heading2"])
    with ["Analisis Ringkas"].
  change (story_paragraphs "Normal" [Paragraph title "Title"; Spacer 1 12;
                                     Paragraph "Analisis Ringkas" "Heading2"])
    with (@nil string).
  change (story_paragraphs "Heading3" [Paragraph title "Title"; Spacer 1 12;
                                       Paragraph "Analisis Ringkas" "Heading2"])
    with (@nil string).
  cbn. rewrite !app_nil_r. repeat split.
  - apply split_join.
  - apply split_pieces.
Qed.

(** X9. [export_pdf] asks reportlab once, for the fixed path [laporan.pdf]
    under the temporary directory, and returns that path when the build
    succeeds.  The story holds the title, the heading "Analisis Ringkas", the
    narrative as paragraphs free of line breaks that joined by line breaks give
    the narrative back, and, for the images in order, the headings "Graf 1",
    "Graf 2", ... each followed by its image. *)
Theorem pdf_story_content (H : Host) (title text : string) (images : list string)
    (t : list Event) :
  exists story,
    export_pdf H title text images t
    = (result_map (fun _ => path_join (gettempdir H) "laporan.pdf")
         (pdf_build H (path_join (gettempdir H) "laporan.pdf") story),
       (t ++ [ev_pdf_build (path_join (gettempdir H) "laporan.pdf") story])%list)
    /\ story_paragraphs "Title" story = [title]
    /\ story_paragraphs "Heading2" story = ["Analisis Ringkas"]
    /\ String.concat nl (story_paragraphs "Normal" story) = text
    /\ Forall (fun p => has_LF p = false) (story_paragraphs "Normal" story)
    /\ story_paragraphs "Heading3" story = chart_headings (List.length images)
    /\ story_images story = images.
Proof.
  exists ([Paragraph title "Title"; Spacer 1 12; Paragraph "Analisis Ringkas" "Heading2"]
          ++ map (fun p => Paragraph p "Normal") (str_split LF text)
          ++ [Spacer 1 12]
          ++ flat_map (fun ip => [Paragraph ("Graf " ++ str_of_nat (fst ip)) "Heading3";
                                  RLImage (snd ip) 400 250;
                                  Spacer 1 12])
                      (enumerate images 1))%list.
  split.
  { unfold export_pdf, bind, call, ret.
    destruct (pdf_build H _ _) as [[]|e]; reflexivity. }
  now apply (pdf_story_facts title text images).
Qed.

Lemma body_headings_app (level : nat) (a b : list DocxItem) :
  body_headings level (a ++ b) = (body_headings level a ++ body_headings level b)%list.
Proof. apply flat_map_app. Qed.

Lemma body_paragraphs_app (a b : list DocxItem) :
  body_paragraphs (a ++ b) = (body_paragraphs a ++ body_paragraphs b)%list.
Proof. apply flat_map_app. Qed.

Lemma body_pictures_app (a b : list DocxItem) :
  body_pictures (a ++ b) = (body_pictures a ++ body_pictures b)%list.
Proof. apply flat_map_app. Qed.

Lemma body_of_lines (lines : list string) :
  body_paragraphs (map add_paragraph lines) = lines
  /\ body_pictures (map add_paragraph lines) = []
  /\ forall level, body_headings level (map add_paragraph lines) = [].
Proof.
  unfold body_paragraphs, body_pictures, body_headings.
  induction lines as [|l lines (IHp & IHi & IHh)]; [repeat split|].
  cbn [flat_map map app]. rewrite IHp, IHi. repeat split. exact IHh.
Qed.

Lemma body_of_charts (items : list (nat * string)) :
  body_paragraphs
    (flat_map (fun ip => [add_heading ("Graf " ++ str_of_nat (fst ip)) 3;
                          add_picture (snd ip) 6]) items) = []
  /\ body_pictures
       (flat_map (fun ip => [add_heading ("Graf " ++ str_of_nat (fst ip)) 3;
                             add_picture (snd ip) 6]) items) = map snd items
  /\ body_headings 3
       (flat_map (fun ip => [add_heading ("Graf " ++ str_of_nat (fst ip)) 3;
                             add_picture (snd ip) 6]) items)
     = map (fun i => "Graf " ++ str_of_nat i) (map fst items)
  /\ body_headings 1
       (flat_map (fun ip => [add_heading ("Graf " ++ str_of_nat (fst ip)) 3;
                             add_picture (snd ip) 6]) items) = []
  /\ body_headings 2
       (flat_map (fun ip => [add_heading ("Graf " ++ str_of_nat (fst ip)) 3;
                             add_picture (snd ip) 6]) items) = [].
Proof.
  unfold body_paragraphs, body_pictures, body_headings.
  induction items as [|ip items (IHp & IHi & IH3 & IH1 & IH2)]; [repeat split|].
  cbn [flat_map map app Nat.eqb]. rewrite IHp, IHi, IH3, IH1, IH2. repeat split.
Qed.

(** What the body of [export_docx] holds. *)
Lemma docx_body_facts (title text : string) (images : list string) (body : list DocxItem) :
  body = ([add_heading title 1; add_heading "Analisis Ringkas" 2]
          ++ map add_paragraph (str_split LF text)
          ++ flat_map (fun ip => [add_heading ("Graf " ++ str_of_nat (fst ip)) 3;
                                  add_picture (snd ip) 6])
                      (enumerate images 1))%list ->
  body_headings 1 body = [title]
  /\ body_headings 2 body = ["Analisis Ringkas"]
  /\ String.concat nl (body_paragraphs body) = text
  /\ Forall (fun p => has_LF p = false) (body_paragraphs body)
  /\ body_headings 3 body = chart_headings (List.length images)
  /\ body_pictures body = images.
Proof.
  intros ->.
  destruct (body_of_lines (str_split LF text)) as (Lp & Li & Lh).
  destruct (body_of_charts (enumerate images 1)) as (Cp & Ci & C3 & C1 & C2).
  rewrite !body_headings_app, !body_paragraphs_app, !body_pictures_app.
  rewrite Lp, Li, !Lh, Cp, Ci, C3, C1, C2, enumerate_fst, enumerate_snd.
  cbn. rewrite !app_nil_r. repeat split.
  - apply split_join.
  - apply split_pieces.
Qed.

(** X10. [export_docx] asks python-docx once, for the fixed path
    [laporan.docx] under the temporary directory, and returns that path when
    saving succeeds.  The body holds the title as the only level-1 heading,
    "Analisis Ringkas" as the only level-2 heading, the narrative as paragraphs
    free of line breaks that joined by line breaks give the narrative back,
    and, for the images in order, the level-3 headings "Graf 1", "Graf 2", ...
    each followed by its picture. *)
Theorem docx_body_content (H : Host) (title text : string) (images : list string)
    (t : list Event) :
  exists body,
    export_docx H title text images t
    = (result_map (fun _ => path_join (gettempdir H) "laporan.docx")
         (docx_save H (path_join (gettempdir H) "laporan.docx") body),
       (t ++ [ev_docx_save (path_join (gettempdir H) "laporan.docx") body])%list)
    /\ body_headings 1 body = [title]
    /\ body_headings 2 body = ["Analisis Ringkas"]
    /\ String.concat nl (body_paragraphs body) = text
    /\ Forall (fun p => has_LF p = false) (body_paragraphs body)
    /\ body_headings 3 body = chart_headings (List.length images)
    /\ body_pictures body = images.
Proof.
  exists ([add_heading title 1; add_heading "Analisis Ringkas" 2]
          ++ map add_paragraph (str_split LF text)
          ++ flat_map (fun ip => [add_heading ("Graf " ++ str_of_nat (fst ip)) 3;
                                  add_picture (snd ip) 6])
                      (enumerate images 1))%list.
  split.
  { unfold export_docx, bind, call, ret.
    destruct (docx_save H _ _) as [[]|e]; reflexivity. }
  now apply (docx_body_facts title text images).
Qed.

(** ** The export stage *)

Lemma export_pdf_run (H : Host) (title text : string) (images : list string)
    (t : list Event) :
  exists story,
    export_pdf H title text images t
    = (result_map (fun _ => pdf_path H) (pdf_build H (pdf_path H) story),
       (t ++ [ev_pdf_build (pdf_path H) story])%list).
Proof.
  unfold export_pdf, bind, call, ret, pdf_path.
  match goal with |- context [pdf_build H ?p ?s] =>
    exists s; destruct (pdf_build H p s) as [[]|e]
  end; reflexivity.
Qed.

Lemma export_docx_run (H : Host) (title text : string) (images : list string)
    (t : list Event) :
  exists body,
    export_docx H title text images t
    = (result_map (fun _ => docx_path H) (docx_save H (docx_path H) body),
       (t ++ [ev_docx_save (docx_path H) body])%list).
Proof.
  unfold export_docx, bind, call, ret, docx_path.
  match goal with |- context [docx_save H ?p ?s] =>
    exists s; destruct (docx_save H p s) as [[]|e]
  end; reflexivity.
Qed.

(** EXPORT, case by case, with the calls it makes. *)
Lemma export_cases (H : Host) (title : option string) (explanation : string)
    (figs : list Figure) (t : list Event) :
  exists evs,
    forallb is_export evs = true
    /\ existsb is_chat evs = false
    /\ (export H title explanation figs t
        = (Ok (explanation, Some (pdf_path H), Some (docx_path H)), (t ++ evs)%list)
        \/ exists e,
             export H title explanation figs t
             = (Ok (explanation ++ export_failure e, None, None), (t ++ evs)%list)).
Proof.
  rewrite export_run. unfold export_body, bind, save_images.
  destruct (write_images_trace H figs 1 t) as (evs1 & E1 & X1 & C1).
  destruct (write_images H (enumerate figs 1) t) as [[imgs|e] t1]; simpl in E1; subst t1.
  2:{ exists evs1. repeat split; trivial. right. now exists e. }
  destruct (export_pdf_run H (str_or title default_title) explanation imgs (t ++ evs1)%list)
    as (story & ->).
  destruct (pdf_build H (pdf_path H) story) as [[]|e]; simpl.
  2:{ exists (evs1 ++ [ev_pdf_build (pdf_path H) story])%list.
      rewrite forallb_app, existsb_app, X1, C1, <- app_assoc.
      repeat split. right. now exists e. }
  destruct (export_docx_run H (str_or title default_title) explanation imgs
              ((t ++ evs1) ++ [ev_pdf_build (pdf_path H) story])%list) as (body & ->).
  exists (evs1 ++ [ev_pdf_build (pdf_path H) story; ev_docx_save (docx_path H) body])%list.
  rewrite forallb_app, existsb_app, X1, C1.
  replace ((t ++ evs1) ++ [ev_pdf_build (pdf_path H) story])%list
    with (t ++ evs1 ++ [ev_pdf_build (pdf_path H) story])%list by now rewrite app_assoc.
  replace ((t ++ evs1 ++ [ev_pdf_build (pdf_path H) story])
           ++ [ev_docx_save (docx_path H) body])%list
    with (t ++ evs1 ++ [ev_pdf_build (pdf_path H) story; ev_docx_save (docx_path H) body])%list
    by now rewrite <- !app_assoc.
  destruct (docx_save H (docx_path H) body) as [[]|e]; simpl; repeat split; auto.
  right. now exists e.
Qed.

(** X11. EXPORT never raises and reports all or nothing: either the
    narrative is returned unchanged with both fixed paths, [laporan.pdf] and
    [laporan.docx] under the temporary directory, or both paths are [None]
    and the narrative carries the failure note. *)
Theorem export_all_or_nothing (H : Host) (title : option string) (explanation : string)
    (figs : list Figure) (t : list Event) :
  exists text pdf docx t',
    export H title explanation figs t = (Ok (text, pdf, docx), t')
    /\ ((text = explanation
         /\ pdf = Some (path_join (gettempdir H) "laporan.pdf")
         /\ docx = Some (path_join (gettempdir H) "laporan.docx"))
        \/ (exists e, text = explanation ++ nl ++ "⚠️ Gagal export: " ++ exn_str e
                      /\ pdf = None /\ docx = None)).
Proof.
  destruct (export_cases H title explanation figs t) as (evs & _ & _ & [E | (e & E)]).
  - exists explanation, (Some (pdf_path H)), (Some (docx_path H)), (t ++ evs)%list.
    split; [exact E | left; repeat split].
  - exists (explanation ++ export_failure e), None, None, (t ++ evs)%list.
    split; [exact E | right; exists e; repeat split].
Qed.

(** ** The calls of a run *)

(** The loader reads at most once, and yields no dataset without reading. *)
Lemma load_df_cases (H : Host) (file : option Upload) (text_data url : option string) :
  (file = None /\ given H text_data = None /\ given H url = None
   /\ run (load_df H file text_data url) = (Ok None, []))
  \/ (exists src,
        (file <> None \/ given H text_data <> None \/ given H url <> None)
        /\ run (load_df H file text_data url)
           = (result_map Some (read_csv H src), [ev_read_csv src])).
Proof.
  assert (Read : forall src,
             (df <- pd_read_csv H src ;; ret (Some df)) []
             = (result_map Some (read_csv H src), [ev_read_csv src])).
  { intros src. unfold bind, pd_read_csv, call, ret. simpl.
    destruct (read_csv H src); reflexivity. }
  unfold run, load_df. destruct file as [f|].
  { right. eexists. split; [left; discriminate | apply Read]. }
  destruct (given H text_data) as [s|] eqn:T.
  { right. eexists. split; [right; left; discriminate | apply Read]. }
  destruct (given H url) as [u|] eqn:U.
  { right. eexists. split; [right; right; discriminate | apply Read]. }
  left. repeat split.
Qed.

(** After a dataset is loaded, the run asks the chat service once and then
    goes through EXPORT, whether or not it ends with a tuple. *)
Lemma pipeline_trace (H : Host) (file : option Upload)
    (text_data url query title : option string) (df : DataFrame) (t0 : list Event) :
  run (load_df H file text_data url) = (Ok (Some df), t0) ->
  exists figs,
    events (pipeline H file text_data url query title)
    = snd (export H title (narrative H df query) figs
             (t0 ++ [chat_event H df query])%list).
Proof.
  intros L. unfold events.
  destruct (has_numeric df) eqn:N.
  - destruct (auto_chart_total H df) as [main Em].
    destruct (map_chart_total H df) as [mapfig Eg].
    destruct (has_numeric_first _ N) as [y Ey].
    destruct (first_numeric_first_column _ _ Ey) as [x Ex].
    exists (all_figures main (panel df x y) mapfig).
    rewrite (pipeline_with_numbers _ _ _ _ _ _ _ _ _ _ _ L N Em
               (multi_graphs_panel _ _ _ Ey Ex) Eg).
    destruct (export H title _ _ _) as [[[[text pdf] docx]|e] t']; reflexivity.
  - exists [no_numeric_chart]. now rewrite (pipeline_without_numbers _ _ _ _ _ _ _ _ L N).
Qed.

(** X12. A run that loads a dataset sends exactly one request to the chat
    service, right after the read: the model is [gpt-4o-mini], the temperature
    0.4, the sample is the head of the dataset and the question is the user's,
    or "Terangkan trend utama" when the user gave none.  Every later call
    writes an image or a document. *)
Theorem one_chat_request (H : Host) (file : option Upload)
    (text_data url query title : option string) (df : DataFrame) (t0 : list Event) :
  run (load_df H file text_data url) = (Ok (Some df), t0) ->
  exists rest,
    events (pipeline H file text_data url query title)
    = (t0
       ++ ev_chat_create "gpt-4o-mini"
            (chat_messages (str_or query "Terangkan trend utama") (head_to_string H df))
            (4 # 10)
       :: rest)%list
    /\ existsb is_chat t0 = false
    /\ existsb is_chat rest = false
    /\ forallb is_export rest = true.
Proof.
  intros L. destruct (pipeline_trace H _ _ _ query title _ _ L) as [figs ->].
  destruct (export_cases H title (narrative H df query) figs
              (t0 ++ [chat_event H df query])%list) as (evs & X & C & E).
  exists evs. repeat split; trivial.
  - destruct E as [-> | (e & ->)]; simpl; now rewrite <- app_assoc.
  - destruct (load_df_cases H file text_data url) as [(_ & _ & _ & R) | (src & _ & R)];
      rewrite R in L; injection L as _ <-; reflexivity.
Qed.

Lemma one_chat_request_witness :
  exists rest,
    events (pipeline host_sales None (Some sales_csv) None (Some "") None)
    = ([ev_read_csv (StringIO sales_csv)]
       ++ ev_chat_create "gpt-4o-mini"
            (chat_messages (str_or (Some "") "Terangkan trend utama")
               (head_to_string host_sales year_sales))
            (4 # 10)
       :: rest)%list
    /\ existsb is_chat [ev_read_csv (StringIO sales_csv)] = false
    /\ existsb is_chat rest = false
    /\ forallb is_export rest = true.
Proof.
  exact (one_chat_request host_sales None (Some sales_csv) None (Some "") None
           year_sales [ev_read_csv (StringIO sales_csv)] eq_refl).
Defined.

(** X13. When no dataset is obtained, because no source is given or because
    reading raises, the run makes no call beyond the loader's: at most one
    read, no chat request, no image and no document. *)
Theorem no_dataset_no_downstream (H : Host) (file : option Upload)
    (text_data url query title : option string) :
  (forall df, outcome (load_df H file text_data url) <> Ok (Some df)) ->
  events (pipeline H file text_data url query title)
  = events (load_df H file text_data url)
  /\ (List.length (events (pipeline H file text_data url query title)) <= 1)%nat
  /\ forallb is_read (events (pipeline H file text_data url query title)) = true.
Proof.
  intros NoData. unfold events, outcome, run in *. rewrite pipeline_stages.
  destruct (load_df_cases H file text_data url) as [(_ & _ & _ & R) | (src & _ & R)];
    unfold run in R; rewrite R in *; simpl in *.
  - repeat split. apply Nat.le_0_l.
  - destruct (read_csv H src) as [df|e]; simpl in *.
    + now destruct (NoData df).
    + repeat split. apply Nat.le_refl.
Qed.

Lemma no_dataset_no_downstream_witness :
  events (pipeline host_sales (Some {| file_name := "data.csv" |}) None None None None)
  = events (load_df host_sales (Some {| file_name := "data.csv" |}) None None)
  /\ (List.length
        (events (pipeline host_sales (Some {| file_name := "data.csv" |}) None None None None))
      <= 1)%nat
  /\ forallb is_read
       (events (pipeline host_sales (Some {| file_name := "data.csv" |}) None None None None))
     = true.
Proof.
  refine (no_dataset_no_downstream host_sales (Some {| file_name := "data.csv" |})
            None None None None _).
  intros df E. discriminate E.
Defined.

(** X14. The "no data" tuple is returned exactly when no source is given: no
    file, and a pasted text and a URL that are absent, empty or blank. *)
Theorem no_data_exactly_when_no_source (H : Host) (file : option Upload)
    (text_data url query title : option string) :
  outcome (pipeline H file text_data url query title)
  = Ok (None, None, None, None, None, "⚠️ Tiada data", None, None)
  <-> file = None /\ given H text_data = None /\ given H url = None.
Proof.
  unfold outcome. split.
  - intros E.
    destruct (load_df_cases H file text_data url) as [(F & T & U & _) | (src & _ & R)];
      [auto|].
    exfalso. destruct (read_csv H src) as [df|e] eqn:Csv; simpl in R.
    + destruct (has_numeric df) eqn:N.
      * destruct (auto_chart_total H df) as [main Em].
        destruct (map_chart_total H df) as [mapfig Eg].
        destruct (has_numeric_first _ N) as [y Ey].
        destruct (first_numeric_first_column _ _ Ey) as [x Ex].
        rewrite (pipeline_with_numbers _ _ _ _ query title _ _ _ _ _ R N Em
                   (multi_graphs_panel _ _ _ Ey Ex) Eg) in E.
        destruct (export H title _ _ _) as [[[[text pdf] docx]|e] t']; discriminate E.
      * rewrite (pipeline_without_numbers _ _ _ _ query title _ _ R N) in E.
        discriminate E.
    + unfold run in *. rewrite pipeline_stages, R in E. simpl in E. discriminate E.
  - intros (-> & T & U). unfold run. rewrite pipeline_stages. unfold load_df.
    now rewrite T, U.
Qed.

(** ** A run in which every service works *)

Lemma export_success (H : Host) (title : option string) (explanation : string)
    (figs : list Figure) (t : list Event) :
  (forall f p, write_image H f p 2 = Ok tt) ->
  (forall p story, pdf_build H p story = Ok tt) ->
  (forall p body, docx_save H p body = Ok tt) ->
  exists story body,
    export H title explanation figs t
    = (Ok (explanation, Some (pdf_path H), Some (docx_path H)),
       (t ++ write_events H figs 1
          ++ [ev_pdf_build (pdf_path H) story; ev_docx_save (docx_path H) body])%list).
Proof.
  intros Img Pdf Docx. rewrite export_run. unfold export_body, bind, save_images.
  rewrite write_images_ok by (intros; apply Img).
  destruct (export_pdf_run H (str_or title default_title) explanation
              (image_paths H 1 (List.length figs)) (t ++ write_events H figs 1)%list)
    as (story & ->).
  rewrite Pdf. simpl.
  destruct (export_docx_run H (str_or title default_title) explanation
              (image_paths H 1 (List.length figs))
              ((t ++ write_events H figs 1) ++ [ev_pdf_build (pdf_path H) story])%list)
    as (body & ->).
  rewrite Docx. simpl. exists story, body. unfold ret. now rewrite <- !app_assoc.
Qed.

(** X15. When a dataset with a numeric column is loaded and every service
    works, the run returns the charts, the stripped answer of the chat service
    and both document paths; it reads once, asks the chat service once, writes
    each chart of the report once, in the order main chart, line, bar,
    scatter, map, and then builds the PDF and saves the DOCX. *)
Theorem pipeline_succeeds_when_services_do (H : Host) (file : option Upload)
    (text_data url query title : option string) (df : DataFrame) (t0 : list Event)
    (answer : string) :
  run (load_df H file text_data url) = (Ok (Some df), t0) ->
  has_numeric df = true ->
  chat_create H "gpt-4o-mini"
    (chat_messages (str_or query default_question) (head_to_string H df)) (4 # 10)
  = Ok (Some answer) ->
  (forall f p, write_image H f p 2 = Ok tt) ->
  (forall p story, pdf_build H p story = Ok tt) ->
  (forall p body, docx_save H p body = Ok tt) ->
  exists main figs mapfig story body,
    auto_chart H df = Ok main
    /\ multi_graphs df = Ok figs
    /\ map_chart H df = Ok mapfig
    /\ run (pipeline H file text_data url query title)
       = (Ok (Some main, nth_error figs 0, nth_error figs 1, nth_error figs 2, mapfig,
              str_strip H answer,
              Some (path_join (gettempdir H) "laporan.pdf"),
              Some (path_join (gettempdir H) "laporan.docx")),
          (t0 ++ [chat_event H df query]
              ++ write_events H
                   ([main] ++ figs ++ match mapfig with Some m => [m] | None => [] end) 1
              ++ [ev_pdf_build (path_join (gettempdir H) "laporan.pdf") story;
                  ev_docx_save (path_join (gettempdir H) "laporan.docx") body])%list).
Proof.
  intros L N Chat Img Pdf Docx.
  destruct (auto_chart_total H df) as [main Em].
  destruct (map_chart_total H df) as [mapfig Eg].
  destruct (has_numeric_first _ N) as [y Ey].
  destruct (first_numeric_first_column _ _ Ey) as [x Ex].
  pose proof (multi_graphs_panel _ _ _ Ey Ex) as Ef.
  destruct (export_success H title (narrative H df query)
              (all_figures main (panel df x y) mapfig)
              (t0 ++ [chat_event H df query])%list Img Pdf Docx) as (story & body & E).
  exists main, (panel df x y), mapfig, story, body. repeat split; trivial.
  rewrite (pipeline_with_numbers _ _ _ _ query title _ _ _ _ _ L N Em Ef Eg), E.
  unfold narrative. rewrite Chat. unfold outputs, all_figures, pdf_path, docx_path.
  now rewrite <- !app_assoc.
Qed.

Lemma pipeline_succeeds_when_services_do_witness :
  exists main figs mapfig story body,
    auto_chart host_sales year_sales = Ok main
    /\ multi_graphs year_sales = Ok figs
    /\ map_chart host_sales year_sales = Ok mapfig
    /\ run (pipeline host_sales None (Some sales_csv) None None None)
       = (Ok (Some main, nth_error figs 0, nth_error figs 1, nth_error figs 2, mapfig,
              str_strip host_sales "Ringkasan.",
              Some (path_join (gettempdir host_sales) "laporan.pdf"),
              Some (path_join (gettempdir host_sales) "laporan.docx")),
          ([ev_read_csv (StringIO sales_csv)]
              ++ [chat_event host_sales year_sales None]
              ++ write_events host_sales
                   ([main] ++ figs ++ match mapfig with Some m => [m] | None => [] end) 1
              ++ [ev_pdf_build (path_join (gettempdir host_sales) "laporan.pdf") story;
                  ev_docx_save (path_join (gettempdir host_sales) "laporan.docx") body])%list).
Proof.
  exact (pipeline_succeeds_when_services_do host_sales None (Some sales_csv) None None None
           year_sales [ev_read_csv (StringIO sales_csv)] "Ringkasan."
           eq_refl eq_refl eq_refl
           (fun _ _ => eq_refl) (fun _ _ => eq_refl) (fun _ _ => eq_refl)).
Defined.

(** ** The documents and the images written for them *)

Lemma write_images_cases (H : Host) (figs : list Figure) :
  forall (start : nat) (t : list Event),
    write_images H (enumerate figs start) t
    = (Ok (image_paths H start (List.length figs)), (t ++ write_events H figs start)%list)
    \/ exists e evs,
         write_images H (enumerate figs start) t = (Raise e, (t ++ evs)%list)
         /\ forallb is_write evs = true.
Proof.
  induction figs as [|f rest IH]; intros start t.
  - left. simpl. unfold ret, write_events. simpl. now rewrite app_nil_r.
  - rewrite write_images_step.
    destruct (write_image H f (chart_path H start) 2) as [[]|e].
    + destruct (IH (S start) (t ++ [ev_write_image f (chart_path H start) 2])%list)
        as [-> | (e & evs & -> & W)].
      * left. unfold write_events, image_paths. simpl. now rewrite <- app_assoc.
      * right. exists e, (ev_write_image f (chart_path H start) 2 :: evs).
        rewrite <- app_assoc. split; [reflexivity | exact W].
    + right. exists e, [ev_write_image f (chart_path H start) 2]. split; reflexivity.
Qed.

Lemma write_events_are_writes (H : Host) (figs : list Figure) (start : nat) (ev : Event) :
  In ev (write_events H figs start) -> is_write ev = true.
Proof.
  unfold write_events. intros I. apply in_map_iff in I.
  destruct I as (ip & <- & _). reflexivity.
Qed.

(** X16. The documents embed exactly the images written for them.  Whenever
    EXPORT asks for the PDF, every chart has been written before, and the
    story holds the title (the default one when none is given), the narrative
    and the paths of the written images in order; whenever it asks for the
    DOCX, the PDF has been built before from the same images, and the body
    holds the same title, narrative and paths. *)
Theorem documents_embed_written_images (H : Host) (title : option string)
    (explanation : string) (figs : list Figure) (t : list Event) :
  exists evs,
    snd (export H title explanation figs t) = (t ++ evs)%list
    /\ (forall p story, In (ev_pdf_build p story) evs ->
          p = path_join (gettempdir H) "laporan.pdf"
          /\ story_paragraphs "Title" story = [str_or title "📊 Laporan AIzz Data Analyst"]
          /\ String.concat nl (story_paragraphs "Normal" story) = explanation
          /\ story_images story = image_paths H 1 (List.length figs)
          /\ exists later, evs = (write_events H figs 1 ++ ev_pdf_build p story :: later)%list)
    /\ (forall p body, In (ev_docx_save p body) evs ->
          p = path_join (gettempdir H) "laporan.docx"
          /\ body_headings 1 body = [str_or title "📊 Laporan AIzz Data Analyst"]
          /\ String.concat nl (body_paragraphs body) = explanation
          /\ body_pictures body = image_paths H 1 (List.length figs)
          /\ exists story,
               story_images story = body_pictures body
               /\ evs = (write_events H figs 1
                         ++ [ev_pdf_build (path_join (gettempdir H) "laporan.pdf") story;
                             ev_docx_save p body])%list).
Proof.
  rewrite export_run. unfold export_body, bind, save_images.
  destruct (write_images_cases H figs 1 t) as [-> | (e & evs & -> & W)].
  2:{ exists evs. split; [reflexivity|]. rewrite forallb_forall in W.
      split; intros p x I; apply W in I; discriminate I. }
  set (imgs := image_paths H 1 (List.length figs)).
  set (ttl := str_or title default_title).
  set (story := ([Paragraph ttl "Title"; Spacer 1 12; Paragraph "Analisis Ringkas" "Heading2"]
          ++ map (fun p => Paragraph p "Normal") (str_split LF explanation)
          ++ [Spacer 1 12]
          ++ flat_map (fun ip => [Paragraph ("Graf " ++ str_of_nat (fst ip)) "Heading3";
                                  RLImage (snd ip) 400 250;
                                  Spacer 1 12])
                      (enumerate imgs 1))%list).
  set (body := ([add_heading ttl 1; add_heading "Analisis Ringkas" 2]
          ++ map add_paragraph (str_split LF explanation)
          ++ flat_map (fun ip => [add_heading ("Graf " ++ str_of_nat (fst ip)) 3;
                                  add_picture (snd ip) 6])
                      (enumerate imgs 1))%list).
  destruct (pdf_story_facts ttl explanation imgs story eq_refl) as (St & _ & Sn & _ & _ & Si).
  destruct (docx_body_facts ttl explanation imgs body eq_refl) as (Bt & _ & Bn & _ & _ & Bi).
  assert (NoPdf : forall p x, ~ In (ev_pdf_build p x) (write_events H figs 1))
    by (intros p x I; apply write_events_are_writes in I; discriminate I).
  assert (NoDocx : forall p x, ~ In (ev_docx_save p x) (write_events H figs 1))
    by (intros p x I; apply write_events_are_writes in I; discriminate I).
  assert (Pdf : export_pdf H ttl explanation imgs (t ++ write_events H figs 1)%list
                = (result_map (fun _ => pdf_path H) (pdf_build H (pdf_path H) story),
                   ((t ++ write_events H figs 1) ++ [ev_pdf_build (pdf_path H) story])%list)).
  { unfold export_pdf, bind, call, ret. fold (pdf_path H). fold story.
    destruct (pdf_build H (pdf_path H) story) as [[]|e]; reflexivity. }
  rewrite Pdf. clear Pdf.
  destruct (pdf_build H (pdf_path H) story) as [[]|e]; simpl.
  2:{ exists (write_events H figs 1 ++ [ev_pdf_build (pdf_path H) story])%list.
      rewrite <- app_assoc. split; [reflexivity|]. split; intros p x I;
        apply in_app_or in I; destruct I as [I | [I | []]];
        try (now apply NoPdf in I); try (now apply NoDocx in I); try discriminate I.
      injection I as <- <-. repeat split; trivial. now exists []. }
  assert (Docx : export_docx H ttl explanation imgs
                   ((t ++ write_events H figs 1) ++ [ev_pdf_build (pdf_path H) story])%list
                 = (result_map (fun _ => docx_path H) (docx_save H (docx_path H) body),
                    (((t ++ write_events H figs 1) ++ [ev_pdf_build (pdf_path H) story])
                       ++ [ev_docx_save (docx_path H) body])%list)).
  { unfold export_docx, bind, call, ret. fold (docx_path H). fold body.
    destruct (docx_save H (docx_path H) body) as [[]|e]; reflexivity. }
  rewrite Docx. clear Docx.
  exists (write_events H figs 1
          ++ [ev_pdf_build (pdf_path H) story; ev_docx_save (docx_path H) body])%list.
  split.
  { destruct (docx_save H (docx_path H) body) as [[]|e]; simpl; now rewrite <- !app_assoc. }
  split; intros p x I; apply in_app_or in I; destruct I as [I | [I | [I | []]]];
    try (now apply NoPdf in I); try (now apply NoDocx in I); try discriminate I;
    injection I as <- <-; repeat split; trivial.
  - now exists [ev_docx_save (docx_path H) body].
  - exists story. split; [now rewrite Si, Bi | reflexivity].
Qed.
